(** * otrs_mcp.main: runtime option resolution and environment validation

    A shallow embedding of [src/otrs_mcp/main.py].  Python [str] values are
    [string]s (one [ascii] per character, so the characters are the code
    points below 256), Python [int]s are [Z], [None] is
    the [None] of an [option], the process environment [os.environ] is a
    finite map from names to values, and everything the program prints,
    pushes into the server runtime or exits with is recorded in a trace of
    events. *)

From Stdlib Require Import ZArith Ascii String List Decimal DecimalString DecimalZ Lia.
From stdpp Require Import base option gmap strings.

Local Open Scope string_scope.
Local Open Scope Z_scope.

(** ** Python built-ins used by the module *)

Module Py.

(** Truthiness of an optional [str]: [None] and [""] are falsy. *)
Definition truthy (v : option string) : bool :=
  match v with
  | Some (String _ _) => true
  | _ => false
  end.

(** [a or b] on optional strings. *)
Definition or_ (a b : option string) : option string :=
  if truthy a then a else b.

(** [a or d] where the last operand is a non-empty literal. *)
Definition or_default (a : option string) (d : string) : string :=
  match a with
  | Some (String c s) => String c s
  | _ => d
  end.

(** The whitespace that [int] skips around a numeral, among the code
    points below 256: tab, line feed, vertical tab, form feed, carriage
    return, space, next line (133) and no-break space (160). *)
Definition is_space (c : ascii) : bool :=
  let n := N_of_ascii c in
  (((9 <=? n) && (n <=? 13)) || (n =? 32) || (n =? 133) || (n =? 160))%N.

Fixpoint lstrip (s : string) : string :=
  match s with
  | String c r => if is_space c then lstrip r else s
  | EmptyString => EmptyString
  end.

Fixpoint rstrip (s : string) : string :=
  match s with
  | EmptyString => EmptyString
  | String c r =>
      match rstrip r with
      | EmptyString => if is_space c then EmptyString else String c EmptyString
      | r' => String c r'
      end
  end.

Definition strip (s : string) : string := rstrip (lstrip s).

Definition digit_of (c : ascii) : option (uint -> uint) :=
  match c with
  | "0" => Some D0 | "1" => Some D1 | "2" => Some D2 | "3" => Some D3
  | "4" => Some D4 | "5" => Some D5 | "6" => Some D6 | "7" => Some D7
  | "8" => Some D8 | "9" => Some D9
  | _ => None
  end%char.

(** A decimal literal: digits, with single underscores allowed between
    two digits only. *)
Fixpoint digits (s : string) : option uint :=
  match s with
  | EmptyString => None
  | String c r =>
      match digit_of c with
      | None => None
      | Some d =>
          match r with
          | EmptyString => Some (d Nil)
          | String "_"%char r' => option_map d (digits r')
          | String _ _ => option_map d (digits r)
          end
      end
  end.

(** [int(s)] for a [str] in base 10; [None] stands for [ValueError].
    Surrounding whitespace is ignored, one sign may precede the digits.
    Integers are unbounded, as with [sys.set_int_max_str_digits(0)]: the
    interpreter's optional limit on the length of integer text is not
    modelled, neither here nor in [str]. *)
Definition int (s : string) : option Z :=
  match strip s with
  | String "+"%char r => option_map Z.of_uint (digits r)
  | String "-"%char r => option_map (fun u => - Z.of_uint u) (digits r)
  | r => option_map Z.of_uint (digits r)
  end.

(** [str(n)] for an [int]. *)
Definition str (n : Z) : string := NilZero.string_of_int (Z.to_int n).

(** [needle in hay] for two [str]. *)
Fixpoint contains (needle hay : string) : bool :=
  String.prefix needle hay ||
  match hay with
  | EmptyString => false
  | String _ r => contains needle r
  end.

(** [c * n] for a one-character string. *)
Fixpoint repeat (c : ascii) (n : nat) : string :=
  match n with
  | O => EmptyString
  | S k => String c (repeat c k)
  end.

(** [sep.join(l)] *)
Definition join (sep : string) (l : list string) : string :=
  String.concat sep l.

End Py.

(** ** Effects: the trace of a run *)

(** What the process does that an observer can see, in order. *)
Inductive event : Type :=
| Stdout (line : string)          (* print(line) *)
| Stderr (line : string)          (* print(line, file=sys.stderr) *)
| ArgparseError (flag raw : string) (* parser.error: usage and message on stderr *)
| SetHost (h : string)            (* mcp.settings.host = h *)
| SetPort (p : Z)                 (* mcp.settings.port = p *)
| McpRun (transport : string).    (* mcp.run(transport=...) *)

(** A computation either returns a value or leaves through [SystemExit]. *)
Inductive result (A : Type) : Type :=
| Ret (a : A)
| SysExit (code : Z).
Arguments Ret {A} a.
Arguments SysExit {A} code.

Definition Proc (A : Type) : Type := (list event * result A)%type.

#[global] Instance Proc_ret : MRet Proc := fun A a => ([], Ret a).

#[global] Instance Proc_bind : MBind Proc := fun A B f m =>
  match m with
  | (t, Ret a) => let '(t', r) := f a in ((t ++ t')%list, r)
  | (t, SysExit code) => (t, SysExit code)
  end.

Definition emit (e : event) : Proc unit := ([e], Ret tt).
Definition print (line : string) : Proc unit := emit (Stdout line).
Definition eprint (line : string) : Proc unit := emit (Stderr line).
Definition sys_exit {A : Type} (code : Z) : Proc A := ([], SysExit code).

Definition trace {A : Type} (m : Proc A) : list event := fst m.
Definition outcome {A : Type} (m : Proc A) : result A := snd m.

(** The lines written to the diagnostic stream and to standard output. *)
Definition stderr_lines (t : list event) : list string :=
  omap (fun e => match e with Stderr l => Some l | _ => None end) t.
Definition stdout_lines (t : list event) : list string :=
  omap (fun e => match e with Stdout l => Some l | _ => None end) t.

(** The newline character inside a printed string. *)
Definition nl : string := String "010"%char EmptyString.

(** ** Module constants and data *)

Definition VALID_TRANSPORTS : gset string :=
  {[ "stdio"; "sse"; "streamable-http" ]}.
Definition DEFAULT_HTTP_HOST : string := "127.0.0.1".
Definition DEFAULT_HTTP_PORT : Z := 8000.

Record RuntimeOptions : Type := {
  transport : string;
  host : string;
  port : Z
}.

(** The [argparse.Namespace] that [parse_cli_args] returns: each attribute
    is [None] when its flag was not given. *)
Module Namespace.
Record t : Type := mk {
  transport : option string;
  host : option string;
  port : option Z
}.
End Namespace.

(** The process environment, [os.environ]; [os.getenv name] is [env !! name]. *)
Abbreviation environ := (gmap string string).

(** ** parse_cli_args *)

(** The command line as [argparse] sees it after tokenisation: for each of
    the three declared flags, the raw string given to it, if any.  How
    [argparse] splits [argv] into flags and values is the library's
    business and is not modelled.  The command lines covered are those made
    of the three declared flags: the built-in [-h]/[--help] (help text,
    then [SystemExit(0)]) and unrecognised arguments are not among them. *)
Record Argv : Type := {
  flag_transport : option string;
  flag_host : option string;
  flag_port : option string
}.

(** [parser.error] prints the usage and exits with status 2.  (When two
    flags are wrong, [argparse] reports the one that comes first on the
    command line; the model reports [--transport].) *)
Definition argparse_error {A : Type} (flag raw : string) : Proc A :=
  emit (ArgparseError flag raw);; sys_exit 2.

Definition parse_cli_args (argv : Argv) : Proc Namespace.t :=
  (* --transport, choices=sorted(VALID_TRANSPORTS) *)
  transport ← match flag_transport argv with
              | None => mret None
              | Some raw =>
                  if decide (raw ∈ VALID_TRANSPORTS) then mret (Some raw)
                  else argparse_error "--transport" raw
              end;
  (* --host *)
  let host := flag_host argv in
  (* --port, type=int *)
  port ← match flag_port argv with
         | None => mret None
         | Some raw =>
             match Py.int raw with
             | Some n => mret (Some n)
             | None => argparse_error "--port" raw
             end
         end;
  mret (Namespace.mk transport host port).

(** ** _first_env *)

Fixpoint _first_env (env : environ) (names : list string) : option string :=
  match names with
  | [] => None
  | name :: names' =>
      let value := env !! name in
      if Py.truthy value then value else _first_env env names'
  end.

(** ** _parse_port *)

(** The argument of [_parse_port]: an [int] (from the command line) or a
    [str] (from the environment). *)
Inductive port_value : Type :=
| PortInt (n : Z)
| PortStr (s : string).

(** [int(value)] *)
Definition int_of_value (value : port_value) : option Z :=
  match value with
  | PortInt n => Some n
  | PortStr s => Py.int s
  end.

(** [f"{value}"] *)
Definition format_value (value : port_value) : string :=
  match value with
  | PortInt n => Py.str n
  | PortStr s => s
  end.

Definition invalid_port_warning (value : port_value) (default : Z) : string :=
  "[WARN] Invalid MCP port '" +:+ format_value value +:+
  "', falling back to " +:+ Py.str default.

Definition port_range_warning (port default : Z) : string :=
  "[WARN] MCP port '" +:+ Py.str port +:+
  "' out of range, falling back to " +:+ Py.str default.

Definition _parse_port (value : option port_value) (default : Z) : Proc Z :=
  match value with
  | None => mret default
  | Some value =>
      match int_of_value value with
      | None =>
          eprint (invalid_port_warning value default);;
          mret default
      | Some port =>
          if negb ((0 <? port) && (port <? 65536)) then
            eprint (port_range_warning port default);;
            mret default
          else mret port
      end
  end.

(** ** resolve_runtime_options *)

Definition HOST_ENV_NAMES : list string :=
  ["MCP_HTTP_HOST"; "MCP_SERVER_HOST"; "MCP_HOST"].
Definition PORT_ENV_NAMES : list string :=
  ["MCP_HTTP_PORT"; "MCP_SERVER_PORT"; "MCP_PORT"].

Definition unsupported_transport_warning (transport : string) : string :=
  "[WARN] Unsupported MCP transport '" +:+ transport +:+
  "', falling back to 'stdio'".

Definition resolve_runtime_options (args : Namespace.t) (env : environ)
  : Proc RuntimeOptions :=
  let env_transport := env !! "MCP_TRANSPORT" in
  let transport :=
    Py.or_default (Py.or_ (Namespace.transport args) env_transport) "stdio" in
  transport ← (if decide (transport ∈ VALID_TRANSPORTS) then mret transport
               else eprint (unsupported_transport_warning transport);;
                    mret "stdio");
  let host :=
    Py.or_default (Py.or_ (Namespace.host args) (_first_env env HOST_ENV_NAMES))
                  DEFAULT_HTTP_HOST in
  let port_source :=
    match Namespace.port args with
    | Some n => Some (PortInt n)
    | None => PortStr <$> _first_env env PORT_ENV_NAMES
    end in
  port ← _parse_port port_source DEFAULT_HTTP_PORT;
  mret {| transport := transport; host := host; port := port |}.

(** ** apply_runtime_settings *)

Definition apply_runtime_settings (options : RuntimeOptions) : Proc unit :=
  emit (SetHost (host options));;
  emit (SetPort (port options)).

(** ** setup_environment *)

Definition required_vars : list string :=
  ["OTRS_BASE_URL"; "OTRS_USERNAME"; "OTRS_PASSWORD"].

Definition optional_vars : list string :=
  ["OTRS_VERIFY_SSL"; "OTRS_DEFAULT_QUEUE"; "OTRS_DEFAULT_STATE";
   "OTRS_DEFAULT_PRIORITY"].

(** ["*" * len(value) if "PASSWORD" in var else value] *)
Definition display_value (var value : string) : string :=
  if Py.contains "PASSWORD" var then Py.repeat "*" (String.length value)
  else value.

(** [f"  {var}: {value}"] *)
Definition config_line (var value : string) : string :=
  "  " +:+ var +:+ ": " +:+ value.

(** The loop over [required_vars]; [missing_vars] is threaded through. *)
Fixpoint check_required (env : environ) (vars : list string)
    (missing_vars : list string) : Proc (list string) :=
  match vars with
  | [] => mret missing_vars
  | var :: vars' =>
      let value := env !! var in
      missing_vars ← match value with
                     | Some (String c v) =>
                         (* [value] is truthy *)
                         print (config_line var (display_value var (String c v)));;
                         mret missing_vars
                     | _ => mret (missing_vars ++ [var])%list
                     end;
      check_required env vars' missing_vars
  end.

(** The loop over [optional_vars]. *)
Fixpoint show_optional (env : environ) (vars : list string) : Proc unit :=
  match vars with
  | [] => mret tt
  | var :: vars' =>
      let value := default "default" (env !! var) in
      print (config_line var value);;
      show_optional env vars'
  end.

Definition setup_environment (options : RuntimeOptions) (env : environ)
  : Proc bool :=
  print "[CONFIG] OTRS MCP Server Configuration:";;
  missing_vars ← check_required env required_vars [];
  match missing_vars with
  | _ :: _ =>
      print ("[ERROR] Missing required environment variables: " +:+
             Py.join ", " missing_vars);;
      print (nl +:+ "[INFO] Set these environment variables:");;
      print "  export OTRS_BASE_URL='https://your-otrs-server/otrs/nph-genericinterface.pl/Webservice/TestInterface'";;
      print "  export OTRS_USERNAME='your-username'";;
      print "  export OTRS_PASSWORD='your-password'";;
      print "  export OTRS_VERIFY_SSL='false'  # Optional, for self-signed certificates";;
      mret false
  | [] =>
      show_optional env optional_vars;;
      print (nl +:+ "[CONFIG] MCP Runtime Settings:");;
      print ("  MCP_TRANSPORT: " +:+ transport options);;
      print ("  MCP_HOST: " +:+ host options);;
      print ("  MCP_PORT: " +:+ Py.str (port options));;
      (if String.eqb (transport options) "stdio" then
         print "  (host/port affect HTTP transports only)"
       else mret tt);;
      mret true
  end.

(** ** run_server *)

Definition run_server (argv : Argv) (env : environ) : Proc unit :=
  args ← parse_cli_args argv;
  runtime_options ← resolve_runtime_options args env;
  ok ← setup_environment runtime_options env;
  (if negb ok then sys_exit 1 else mret tt);;
  apply_runtime_settings runtime_options;;
  print (nl +:+ "[START] Starting OTRS MCP Server...");;
  print ("[MODE] Running server with '" +:+ transport runtime_options +:+
         "' transport...");;
  (if negb (String.eqb (transport runtime_options) "stdio") then
     print ("[LISTEN] Interface " +:+ host runtime_options +:+ ":" +:+
            Py.str (port runtime_options))
   else mret tt);;
  print ("[OPS] Available operations: SessionCreate, TicketCreate, TicketGet, TicketSearch, " +:+
         "TicketUpdate, TicketHistoryGet, ConfigItemGet, ConfigItemSearch");;
  emit (McpRun (transport runtime_options)).

(** ** Vocabulary of the statements *)

(** The valid ports. *)
Definition in_range (p : Z) : Prop := 0 < p < 65536.

(** [name] is unset in [env], or set to the empty string. *)
Definition unset_or_empty (env : environ) (name : string) : Prop :=
  env !! name = None \/ env !! name = Some "".

(** [name] is the first of [names], in order, that [env] gives a non-empty
    value, and that value is [s]. *)
Definition first_nonempty (env : environ) (names : list string)
    (name s : string) : Prop :=
  exists pre post,
    names = (pre ++ name :: post)%list /\
    Forall (unset_or_empty env) pre /\
    env !! name = Some s /\ s <> "".

(** The transport string that resolution looks at: the flag's value when
    it is given and non-empty, otherwise that of [MCP_TRANSPORT]. *)
Definition supplied_transport (args : Namespace.t) (env : environ)
    (s : string) : Prop :=
  Namespace.transport args = Some s \/
  (Py.truthy (Namespace.transport args) = false /\
   env !! "MCP_TRANSPORT" = Some s).

(** The values of the locals [transport] (before the membership test),
    [host] and [port_source] of [resolve_runtime_options]. *)
Definition chosen_transport (args : Namespace.t) (env : environ) : string :=
  Py.or_default (Py.or_ (Namespace.transport args) (env !! "MCP_TRANSPORT"))
                "stdio".
Definition chosen_host (args : Namespace.t) (env : environ) : string :=
  Py.or_default (Py.or_ (Namespace.host args) (_first_env env HOST_ENV_NAMES))
                DEFAULT_HTTP_HOST.
Definition port_source (args : Namespace.t) (env : environ)
  : option port_value :=
  match Namespace.port args with
  | Some n => Some (PortInt n)
  | None => PortStr <$> _first_env env PORT_ENV_NAMES
  end.

(** [line] begins with [p]. *)
Fixpoint starts_with (p line : string) : bool :=
  match p with
  | EmptyString => true
  | String a p' =>
      match line with
      | EmptyString => false
      | String b line' => Ascii.eqb a b && starts_with p' line'
      end
  end.

(** A line of the diagnostic stream that reports an unsupported transport. *)
Definition is_transport_warning (line : string) : bool :=
  starts_with "[WARN] Unsupported MCP transport" line.

(** An event that touches the server runtime. *)
Definition is_runtime_event (e : event) : bool :=
  match e with
  | SetHost _ | SetPort _ | McpRun _ => true
  | _ => false
  end.

(** The lines that the loop over [required_vars] prints, and the names it
    collects in [missing_vars]. *)
Definition shown_required (env : environ) (vars : list string) : list string :=
  omap (fun var =>
          match env !! var with
          | Some (String c v) =>
              Some (config_line var (display_value var (String c v)))
          | _ => None
          end) vars.
Definition missing_of (env : environ) (vars : list string) : list string :=
  List.filter (fun var => negb (Py.truthy (env !! var))) vars.

(** The lines printed for [optional_vars] and for the runtime settings. *)
Definition optional_lines (env : environ) : list string :=
  map (fun var => config_line var (default "default" (env !! var)))
      optional_vars.
Definition runtime_lines (options : RuntimeOptions) : list string :=
  [ nl +:+ "[CONFIG] MCP Runtime Settings:";
    "  MCP_TRANSPORT: " +:+ transport options;
    "  MCP_HOST: " +:+ host options;
    "  MCP_PORT: " +:+ Py.str (port options) ] ++
  (if String.eqb (transport options) "stdio"
   then ["  (host/port affect HTTP transports only)"] else []).

(** The lines printed when a required variable is missing. *)
Definition missing_lines (missing_vars : list string) : list string :=
  [ "[ERROR] Missing required environment variables: " +:+
      Py.join ", " missing_vars;
    nl +:+ "[INFO] Set these environment variables:";
    "  export OTRS_BASE_URL='https://your-otrs-server/otrs/nph-genericinterface.pl/Webservice/TestInterface'";
    "  export OTRS_USERNAME='your-username'";
    "  export OTRS_PASSWORD='your-password'";
    "  export OTRS_VERIFY_SSL='false'  # Optional, for self-signed certificates" ].

Definition config_header : string := "[CONFIG] OTRS MCP Server Configuration:".

(** Recognises the lines of the optional-variable and runtime-settings
    summary by how they start. *)
Definition is_summary_line (line : string) : bool :=
  starts_with "  OTRS_VERIFY_SSL: " line ||
  starts_with "  OTRS_DEFAULT_" line ||
  starts_with "  MCP_" line ||
  starts_with (nl +:+ "[CONFIG] MCP Runtime Settings:") line ||
  starts_with "  (host/port" line.

(** The names that [resolve_runtime_options] passes to [os.getenv]. *)
Definition RESOLVE_ENV_NAMES : list string :=
  "MCP_TRANSPORT" :: (HOST_ENV_NAMES ++ PORT_ENV_NAMES)%list.

(** Every character of [s] is whitespace for [int]. *)
Fixpoint all_space (s : string) : bool :=
  match s with
  | EmptyString => true
  | String c r => Py.is_space c && all_space r
  end.

(** A command line that the parser takes: [--transport], when given, is
    one of the choices and [--port], when given, is the text of an
    integer. *)
Definition accepted (argv : Argv) : Prop :=
  (forall t, flag_transport argv = Some t -> t ∈ VALID_TRANSPORTS) /\
  (forall raw, flag_port argv = Some raw -> exists n, Py.int raw = Some n).

(** An environment with the three required variables set and non-empty. *)
Definition complete (env : environ) : Prop :=
  Forall (fun var => ~ unset_or_empty env var) required_vars.

(** The lines of the startup banner of [run_server]. *)
Definition listen_line (options : RuntimeOptions) : string :=
  "[LISTEN] Interface " +:+ host options +:+ ":" +:+ Py.str (port options).
Definition banner_lines (options : RuntimeOptions) : list string :=
  [ nl +:+ "[START] Starting OTRS MCP Server...";
    "[MODE] Running server with '" +:+ transport options +:+ "' transport..." ] ++
  (if negb (String.eqb (transport options) "stdio")
   then [listen_line options] else []) ++
  [ "[OPS] Available operations: SessionCreate, TicketCreate, TicketGet, TicketSearch, " +:+
    "TicketUpdate, TicketHistoryGet, ConfigItemGet, ConfigItemSearch" ].
Definition stdio_note : string := "  (host/port affect HTTP transports only)".

(** Sample inputs. *)
Definition no_args : Namespace.t := Namespace.mk None None None.
Definition no_argv : Argv :=
  {| flag_transport := None; flag_host := None; flag_port := None |}.
Definition default_options : RuntimeOptions :=
  {| transport := "stdio"; host := "127.0.0.1"; port := 8000 |}.
Definition no_password : environ :=
  {[ "OTRS_BASE_URL" := "https://otrs.example/ws";
     "OTRS_USERNAME" := "agent" ]}.
Definition credentials : environ :=
  {[ "OTRS_BASE_URL" := "https://otrs.example/ws";
     "OTRS_USERNAME" := "agent";
     "OTRS_PASSWORD" := "secret" ]}.

(** * Properties *)

(** ** Evaluation on concrete inputs *)

Example int_plain : Py.int "9999" = Some 9999. Proof. reflexivity. Qed.
Example int_spaces : Py.int " 42 " = Some 42. Proof. reflexivity. Qed.
Example int_neg : Py.int "-5" = Some (-5). Proof. reflexivity. Qed.
Example int_us : Py.int "1_000" = Some 1000. Proof. reflexivity. Qed.
Example int_us2 : Py.int "1__000" = None. Proof. reflexivity. Qed.
Example int_us3 : Py.int "_1" = None. Proof. reflexivity. Qed.
Example int_us4 : Py.int "1_" = None. Proof. reflexivity. Qed.
Example int_empty : Py.int "" = None. Proof. reflexivity. Qed.
Example int_abc : Py.int "abc" = None. Proof. reflexivity. Qed.
Example int_sign : Py.int "+" = None. Proof. reflexivity. Qed.
Example int_inner : Py.int "1 2" = None. Proof. reflexivity. Qed.
Example str_0 : Py.str 0 = "0". Proof. reflexivity. Qed.
Example str_neg : Py.str (-70000) = "-70000". Proof. reflexivity. Qed.
Example contains1 : Py.contains "PASSWORD" "OTRS_PASSWORD" = true. Proof. reflexivity. Qed.
Example contains2 : Py.contains "PASSWORD" "OTRS_USERNAME" = false. Proof. reflexivity. Qed.

(** The examples of the specification. *)

Example resolve_env_sse_9999 :
  resolve_runtime_options no_args {[ "MCP_TRANSPORT" := "sse"; "MCP_PORT" := "9999" ]}
  = ([], Ret {| transport := "sse"; host := "127.0.0.1"; port := 9999 |}).
Proof. reflexivity. Qed.

Example resolve_cli_port_70000 :
  parse_cli_args {| flag_transport := None; flag_host := None;
                    flag_port := Some "70000" |}
    = ([], Ret (Namespace.mk None None (Some 70000))) /\
  resolve_runtime_options (Namespace.mk None None (Some 70000)) ∅
    = ([Stderr "[WARN] MCP port '70000' out of range, falling back to 8000"],
       Ret {| transport := "stdio"; host := "127.0.0.1"; port := 8000 |}).
Proof. split; reflexivity. Qed.

Example run_without_password :
  outcome (setup_environment default_options no_password) = Ret false /\
  outcome (run_server no_argv no_password) = SysExit 1.
Proof. split; reflexivity. Qed.

Example run_with_credentials :
  run_server {| flag_transport := Some "sse"; flag_host := None;
                flag_port := Some "9000" |} credentials
  = ([ Stdout "[CONFIG] OTRS MCP Server Configuration:";
       Stdout "  OTRS_BASE_URL: https://otrs.example/ws";
       Stdout "  OTRS_USERNAME: agent";
       Stdout "  OTRS_PASSWORD: ******";
       Stdout "  OTRS_VERIFY_SSL: default";
       Stdout "  OTRS_DEFAULT_QUEUE: default";
       Stdout "  OTRS_DEFAULT_STATE: default";
       Stdout "  OTRS_DEFAULT_PRIORITY: default";
       Stdout (nl +:+ "[CONFIG] MCP Runtime Settings:");
       Stdout "  MCP_TRANSPORT: sse";
       Stdout "  MCP_HOST: 127.0.0.1";
       Stdout "  MCP_PORT: 9000";
       SetHost "127.0.0.1";
       SetPort 9000;
       Stdout (nl +:+ "[START] Starting OTRS MCP Server...");
       Stdout "[MODE] Running server with 'sse' transport...";
       Stdout "[LISTEN] Interface 127.0.0.1:9000";
       Stdout "[OPS] Available operations: SessionCreate, TicketCreate, TicketGet, TicketSearch, TicketUpdate, TicketHistoryGet, ConfigItemGet, ConfigItemSearch";
       McpRun "sse" ],
     Ret tt).
Proof. reflexivity. Qed.

Example argparse_rejects_transport :
  parse_cli_args {| flag_transport := Some "bogus"; flag_host := None;
                    flag_port := None |}
  = ([ArgparseError "--transport" "bogus"], SysExit 2).
Proof. reflexivity. Qed.

(** ** Python built-ins *)

Section PyFacts.

Lemma truthy_true_iff (v : option string) :
  Py.truthy v = true <-> exists s, v = Some s /\ s <> "".
Proof.
  split.
  - destruct v as [[|c s]|]; simpl; try discriminate.
    intros _. exists (String c s). split; [reflexivity | discriminate].
  - intros (s & -> & Hs). destruct s; [congruence | reflexivity].
Qed.

Lemma truthy_false_iff (v : option string) :
  Py.truthy v = false <-> v = None \/ v = Some "".
Proof.
  destruct v as [[|c s]|]; simpl; split; auto; try discriminate.
  intros [H|H]; discriminate.
Qed.

Lemma or_default_truthy (v : option string) (s d : string) :
  v = Some s -> s <> "" -> Py.or_default v d = s.
Proof. intros -> Hs. destruct s; [congruence | reflexivity]. Qed.

Lemma or_default_falsy (v : option string) (d : string) :
  Py.truthy v = false -> Py.or_default v d = d.
Proof. destruct v as [[|c s]|]; simpl; congruence. Qed.

Lemma or_truthy (a b : option string) :
  Py.truthy a = true -> Py.or_ a b = a.
Proof. unfold Py.or_. intros ->. reflexivity. Qed.

Lemma or_falsy (a b : option string) :
  Py.truthy a = false -> Py.or_ a b = b.
Proof. unfold Py.or_. intros ->. reflexivity. Qed.

(** The characters of a numeral are not whitespace, so stripping leaves
    the rendering of a number alone. *)
Lemma rstrip_numeral (d : uint) :
  Py.rstrip (NilEmpty.string_of_uint d) = NilEmpty.string_of_uint d.
Proof.
  induction d; simpl; try reflexivity;
    rewrite IHd; destruct (NilEmpty.string_of_uint d); reflexivity.
Qed.

Lemma strip_numeral (d : uint) :
  Py.strip (NilEmpty.string_of_uint d) = NilEmpty.string_of_uint d.
Proof.
  unfold Py.strip.
  assert (Py.lstrip (NilEmpty.string_of_uint d) = NilEmpty.string_of_uint d)
    as -> by (destruct d; reflexivity).
  apply rstrip_numeral.
Qed.

Lemma digits_numeral (d : uint) :
  d <> Nil -> Py.digits (NilEmpty.string_of_uint d) = Some d.
Proof.
  induction d; intros Hd; [congruence | ..]; clear Hd;
    (destruct d; [reflexivity | ..];
     match goal with
     | |- Py.digits (NilEmpty.string_of_uint (?k ?d')) = _ =>
         transitivity (option_map k (Py.digits (NilEmpty.string_of_uint d')));
         [reflexivity | rewrite IHd by discriminate; reflexivity]
     end).
Qed.

Lemma int_numeral (d : uint) :
  d <> Nil -> Py.int (NilEmpty.string_of_uint d) = Some (Z.of_uint d).
Proof.
  intros Hd. unfold Py.int. rewrite strip_numeral.
  pose proof (digits_numeral d Hd) as Hdig.
  destruct d; try congruence; simpl NilEmpty.string_of_uint in *;
    cbv iota beta; rewrite Hdig; reflexivity.
Qed.

Lemma int_neg_numeral (d : uint) :
  d <> Nil ->
  Py.int (String "-" (NilEmpty.string_of_uint d)) = Some (- Z.of_uint d).
Proof.
  intros Hd. unfold Py.int, Py.strip.
  change (Py.lstrip (String "-" ?s)) with (String "-" s).
  assert (Py.rstrip (String "-" (NilEmpty.string_of_uint d))
          = String "-" (NilEmpty.string_of_uint d)) as ->.
  { simpl. rewrite rstrip_numeral.
    destruct d; try congruence; reflexivity. }
  cbv iota beta. rewrite (digits_numeral d Hd). reflexivity.
Qed.

(** [int(str(n)) == n] *)
Lemma int_str (n : Z) : Py.int (Py.str n) = Some n.
Proof.
  unfold Py.str. destruct n as [|p|p]; [reflexivity | |].
  - simpl Z.to_int. simpl NilZero.string_of_int.
    pose proof (DecimalPos.Unsigned.to_uint_nonnil p) as Hp.
    assert (NilZero.string_of_uint (Pos.to_uint p)
            = NilEmpty.string_of_uint (Pos.to_uint p)) as ->
      by (destruct (Pos.to_uint p) eqn:E; [congruence | reflexivity..]).
    rewrite (int_numeral _ Hp). f_equal.
    exact (DecimalZ.of_to (Z.pos p)).
  - simpl Z.to_int. simpl NilZero.string_of_int.
    pose proof (DecimalPos.Unsigned.to_uint_nonnil p) as Hp.
    assert (NilZero.string_of_uint (Pos.to_uint p)
            = NilEmpty.string_of_uint (Pos.to_uint p)) as ->
      by (destruct (Pos.to_uint p) eqn:E; [congruence | reflexivity..]).
    rewrite (int_neg_numeral _ Hp). f_equal.
    exact (DecimalZ.of_to (Z.neg p)).
Qed.

Lemma length_repeat (c : ascii) (n : nat) :
  String.length (Py.repeat c n) = n.
Proof. induction n; simpl; congruence. Qed.

End PyFacts.

(** ** The trace monad *)

Lemma bind_Ret {A B : Type} (m : Proc A) (f : A -> Proc B) (t : list event) (a : A) :
  m = (t, Ret a) ->
  m ≫= f = ((t ++ trace (f a))%list, outcome (f a)).
Proof. intros ->. unfold mbind, Proc_bind, trace, outcome. destruct (f a); reflexivity. Qed.

Lemma bind_SysExit {A B : Type} (m : Proc A) (f : A -> Proc B) (t : list event) (code : Z) :
  m = (t, SysExit code) -> m ≫= f = (t, SysExit code).
Proof. intros ->. reflexivity. Qed.

Lemma proc_eta {A : Type} (m : Proc A) : m = (trace m, outcome m).
Proof. destruct m; reflexivity. Qed.

(** ** _first_env *)

Lemma _first_env_Some (env : environ) (names : list string) (s : string) :
  _first_env env names = Some s <->
  exists name, first_nonempty env names name s.
Proof.
  unfold first_nonempty. induction names as [|n names IH]; simpl.
  - split; [discriminate |]. intros (? & [ | ? ? ] & ? & H & _); discriminate.
  - destruct (Py.truthy (env !! n)) eqn:Ht.
    + apply truthy_true_iff in Ht as (v & Hv & Hne). rewrite Hv. split.
      * intros [= ->]. exists n, [], names. repeat split; auto.
      * intros (name & [ | m pre ] & post & Heq & Hpre & Hs & _).
        -- injection Heq as -> _. congruence.
        -- injection Heq as -> _. apply Forall_cons in Hpre as [[H|H] _]; congruence.
    + rewrite IH. apply truthy_false_iff in Ht. split.
      * intros (name & pre & post & -> & Hpre & Hs & Hne).
        exists name, (n :: pre), post. repeat split; auto.
      * intros (name & [ | m pre ] & post & Heq & Hpre & Hs & Hne).
        -- injection Heq as -> _. destruct Ht; congruence.
        -- injection Heq as -> ->. apply Forall_cons in Hpre as [_ Hpre].
           exists name, pre, post. repeat split; auto.
Qed.

Lemma _first_env_None (env : environ) (names : list string) :
  _first_env env names = None <-> Forall (unset_or_empty env) names.
Proof.
  induction names as [|n names IH]; simpl.
  - split; auto.
  - destruct (Py.truthy (env !! n)) eqn:Ht.
    + apply truthy_true_iff in Ht as (v & Hv & Hne). rewrite Hv. split.
      * discriminate.
      * intros [[H|H] _]%Forall_cons; congruence.
    + rewrite IH. apply truthy_false_iff in Ht. split.
      * intros H. constructor; assumption.
      * intros [_ H]%Forall_cons. exact H.
Qed.

Lemma _first_env_truthy (env : environ) (names : list string) (s : string) :
  _first_env env names = Some s -> s <> "".
Proof.
  intros H. apply _first_env_Some in H as (name & pre & post & _ & _ & _ & H).
  exact H.
Qed.

(** Only the listed names are read. *)
Lemma _first_env_agree (env env' : environ) (names : list string) :
  (forall name, In name names -> env !! name = env' !! name) ->
  _first_env env names = _first_env env' names.
Proof.
  induction names as [|n names IH]; simpl; intros H; [reflexivity |].
  rewrite <- (H n) by auto. rewrite IH by auto. reflexivity.
Qed.

(** ** _parse_port *)

Lemma range_test (p : Z) : (0 <? p) && (p <? 65536) = true <-> in_range p.
Proof. unfold in_range. rewrite andb_true_iff, Z.ltb_lt, Z.ltb_lt. tauto. Qed.

Lemma _parse_port_None (default : Z) :
  _parse_port None default = ([], Ret default).
Proof. reflexivity. Qed.

Lemma _parse_port_invalid (value : port_value) (default : Z) :
  int_of_value value = None ->
  _parse_port (Some value) default =
    ([Stderr (invalid_port_warning value default)], Ret default).
Proof. intros H. unfold _parse_port. rewrite H. reflexivity. Qed.

Lemma _parse_port_out_of_range (value : port_value) (p default : Z) :
  int_of_value value = Some p -> ~ in_range p ->
  _parse_port (Some value) default =
    ([Stderr (port_range_warning p default)], Ret default).
Proof.
  intros H Hr. unfold _parse_port. rewrite H.
  destruct ((0 <? p) && (p <? 65536)) eqn:E; [| reflexivity].
  apply range_test in E. contradiction.
Qed.

Lemma _parse_port_valid (value : port_value) (p default : Z) :
  int_of_value value = Some p -> in_range p ->
  _parse_port (Some value) default = ([], Ret p).
Proof.
  intros H Hr. unfold _parse_port. rewrite H.
  apply range_test in Hr. rewrite Hr. reflexivity.
Qed.

(** [_parse_port] always returns, with a port in range whenever the
    default is, and writes at most one line, to the diagnostic stream. *)
Lemma _parse_port_returns (value : option port_value) (default : Z) :
  exists w p,
    _parse_port value default = (w, Ret p) /\
    (p = default \/ in_range p) /\
    (forall e, In e w -> exists line, e = Stderr line /\ is_transport_warning line = false).
Proof.
  destruct value as [v|].
  - destruct (int_of_value v) as [p|] eqn:Hv.
    + destruct (decide (in_range p)) as [Hr|Hr].
      * exists [], p. rewrite (_parse_port_valid _ _ _ Hv Hr).
        split; [reflexivity | split; [auto | intros e []]].
      * eexists _, default. rewrite (_parse_port_out_of_range _ _ _ Hv Hr).
        split; [reflexivity | split; [auto |]].
        intros e [<- | []]. eexists. split; reflexivity.
    + eexists _, default. rewrite (_parse_port_invalid _ _ Hv).
      split; [reflexivity | split; [auto |]].
      intros e [<- | []]. eexists. split; reflexivity.
  - exists [], default. split; [reflexivity | split; [auto | intros e []]].
Qed.

(** ** resolve_runtime_options *)

Lemma valid_transport_iff (s : string) :
  s ∈ VALID_TRANSPORTS <-> s = "stdio" \/ s = "sse" \/ s = "streamable-http".
Proof.
  unfold VALID_TRANSPORTS. rewrite !elem_of_union, !elem_of_singleton. tauto.
Qed.

(** The function, with its three locals named. *)
Lemma resolve_runtime_options_eq (args : Namespace.t) (env : environ)
    (w : list event) (p : Z) :
  _parse_port (port_source args env) DEFAULT_HTTP_PORT = (w, Ret p) ->
  resolve_runtime_options args env =
    (((if decide (chosen_transport args env ∈ VALID_TRANSPORTS) then []
       else [Stderr (unsupported_transport_warning (chosen_transport args env))])
      ++ w)%list,
     Ret {| transport :=
              if decide (chosen_transport args env ∈ VALID_TRANSPORTS)
              then chosen_transport args env else "stdio";
            host := chosen_host args env;
            port := p |}).
Proof.
  intros Hp. unfold resolve_runtime_options.
  fold (chosen_transport args env) (chosen_host args env) (port_source args env).
  destruct (decide (chosen_transport args env ∈ VALID_TRANSPORTS));
    unfold mbind, mret, Proc_bind, Proc_ret, eprint, emit; rewrite Hp;
    cbn [app]; rewrite app_nil_r; reflexivity.
Qed.

Lemma chosen_transport_supplied (args : Namespace.t) (env : environ) (s : string) :
  supplied_transport args env s -> s <> "" -> chosen_transport args env = s.
Proof.
  unfold chosen_transport. intros [Hs | [Hf Hs]] Hne.
  - rewrite or_truthy by (apply truthy_true_iff; eauto).
    eapply or_default_truthy; eauto.
  - rewrite or_falsy by assumption. eapply or_default_truthy; eauto.
Qed.

Lemma chosen_transport_default (args : Namespace.t) (env : environ) :
  Py.truthy (Namespace.transport args) = false ->
  Py.truthy (env !! "MCP_TRANSPORT") = false ->
  chosen_transport args env = "stdio".
Proof.
  unfold chosen_transport. intros Ha He.
  rewrite or_falsy by assumption. apply or_default_falsy. assumption.
Qed.

Lemma chosen_host_flag (args : Namespace.t) (env : environ) (h : string) :
  Namespace.host args = Some h -> h <> "" -> chosen_host args env = h.
Proof.
  unfold chosen_host. intros Hh Hne.
  rewrite or_truthy by (apply truthy_true_iff; eauto).
  eapply or_default_truthy; eauto.
Qed.

Lemma chosen_host_env (args : Namespace.t) (env : environ) (name h : string) :
  Py.truthy (Namespace.host args) = false ->
  first_nonempty env HOST_ENV_NAMES name h ->
  chosen_host args env = h.
Proof.
  unfold chosen_host. intros Hf Hn.
  rewrite or_falsy by assumption.
  assert (_first_env env HOST_ENV_NAMES = Some h) as ->
    by (apply _first_env_Some; eauto).
  destruct Hn as (_ & _ & _ & _ & _ & Hne).
  eapply or_default_truthy; eauto.
Qed.

Lemma chosen_host_default (args : Namespace.t) (env : environ) :
  Py.truthy (Namespace.host args) = false ->
  Forall (unset_or_empty env) HOST_ENV_NAMES ->
  chosen_host args env = "127.0.0.1".
Proof.
  unfold chosen_host. intros Hf Hn.
  rewrite or_falsy by assumption.
  apply _first_env_None in Hn. rewrite Hn. reflexivity.
Qed.

Lemma port_source_env (args : Namespace.t) (env : environ) (name s : string) :
  Namespace.port args = None ->
  first_nonempty env PORT_ENV_NAMES name s ->
  port_source args env = Some (PortStr s).
Proof.
  unfold port_source. intros -> Hn.
  assert (_first_env env PORT_ENV_NAMES = Some s) as ->
    by (apply _first_env_Some; eauto).
  reflexivity.
Qed.

(** Resolution always returns, and what it writes goes to the diagnostic
    stream only. *)
Lemma resolve_runtime_options_returns (args : Namespace.t) (env : environ) :
  exists w p,
    _parse_port (port_source args env) DEFAULT_HTTP_PORT = (w, Ret p) /\
    (p = DEFAULT_HTTP_PORT \/ in_range p) /\
    (forall e, In e w ->
       exists line, e = Stderr line /\ is_transport_warning line = false) /\
    resolve_runtime_options args env =
      (((if decide (chosen_transport args env ∈ VALID_TRANSPORTS) then []
         else [Stderr (unsupported_transport_warning (chosen_transport args env))])
        ++ w)%list,
       Ret {| transport :=
                if decide (chosen_transport args env ∈ VALID_TRANSPORTS)
                then chosen_transport args env else "stdio";
              host := chosen_host args env;
              port := p |}).
Proof.
  destruct (_parse_port_returns (port_source args env) DEFAULT_HTTP_PORT)
    as (w & p & Hp & Hr & Hw).
  exists w, p. repeat split; auto using resolve_runtime_options_eq.
Qed.

Lemma resolve_runtime_options_port (args : Namespace.t) (env : environ)
    (w : list event) (p : Z) :
  _parse_port (port_source args env) DEFAULT_HTTP_PORT = (w, Ret p) ->
  exists opts,
    outcome (resolve_runtime_options args env) = Ret opts /\
    port opts = p /\
    forall e, In e w -> In e (trace (resolve_runtime_options args env)).
Proof.
  intros Hp. rewrite (resolve_runtime_options_eq _ _ _ _ Hp).
  eexists. split; [reflexivity | split; [reflexivity |]].
  intros e He. unfold trace, fst. apply in_or_app. right. exact He.
Qed.

(** ** Transport *)

(** C1 (amended).  The transport that [resolve_runtime_options] looks at is
    the value of [--transport] when it is given and non-empty, otherwise the
    value of [MCP_TRANSPORT].  When that string is non-empty and supported,
    the resolved transport is that string and no unsupported-transport
    warning is written; when it is non-empty and unsupported, the resolved
    transport is ["stdio"] and the warning naming the string is written
    to the diagnostic stream; when both sources are unset or empty, the
    resolved transport is ["stdio"] and no such warning is written.  On
    the command line an unsupported [--transport] value never reaches
    resolution: the argument parser exits with status 2. *)
Theorem C1_transport_resolution (args : Namespace.t) (env : environ) :
  exists opts,
    outcome (resolve_runtime_options args env) = Ret opts /\
    (forall s, supplied_transport args env s -> s <> "" ->
       s ∈ VALID_TRANSPORTS ->
       transport opts = s /\
       forall line, In (Stderr line) (trace (resolve_runtime_options args env)) ->
                    is_transport_warning line = false) /\
    (forall s, supplied_transport args env s -> s <> "" ->
       s ∉ VALID_TRANSPORTS ->
       transport opts = "stdio" /\
       In (Stderr (unsupported_transport_warning s))
          (trace (resolve_runtime_options args env))) /\
    (Py.truthy (Namespace.transport args) = false ->
     Py.truthy (env !! "MCP_TRANSPORT") = false ->
       transport opts = "stdio" /\
       forall line, In (Stderr line) (trace (resolve_runtime_options args env)) ->
                    is_transport_warning line = false) /\
    (forall argv raw,
       flag_transport argv = Some raw -> raw ∉ VALID_TRANSPORTS ->
       outcome (parse_cli_args argv) = SysExit 2).
Proof.
  destruct (resolve_runtime_options_returns args env)
    as (w & p & _ & _ & Hw & ->).
  assert (forall line, In (Stderr line) w -> is_transport_warning line = false)
    as Hquiet.
  { intros line Hl. destruct (Hw _ Hl) as (l' & [= ->] & Hl'). exact Hl'. }
  eexists. split; [reflexivity |]. unfold trace, fst. cbn [transport].
  split; [| split; [| split]].
  - intros s Hs Hne Hv. rewrite (chosen_transport_supplied _ _ _ Hs Hne).
    destruct (decide (s ∈ VALID_TRANSPORTS)); [| contradiction].
    split; [reflexivity | exact Hquiet].
  - intros s Hs Hne Hv. rewrite (chosen_transport_supplied _ _ _ Hs Hne).
    destruct (decide (s ∈ VALID_TRANSPORTS)); [contradiction |].
    split; [reflexivity | left; reflexivity].
  - intros Ha He. rewrite (chosen_transport_default _ _ Ha He).
    destruct (decide ("stdio" ∈ VALID_TRANSPORTS)) as [_ | Hn].
    + split; [reflexivity | exact Hquiet].
    + exfalso. apply Hn, valid_transport_iff. auto.
  - intros argv raw Hraw Hv. unfold parse_cli_args. rewrite Hraw.
    destruct (decide (raw ∈ VALID_TRANSPORTS)); [contradiction | reflexivity].
Qed.

Lemma bogus_unsupported : "bogus" ∉ VALID_TRANSPORTS.
Proof. rewrite valid_transport_iff. intros [H | [H | H]]; discriminate H. Defined.

Lemma C1_transport_resolution_witness :
  (supplied_transport (Namespace.mk (Some "sse") None None)
                      {[ "MCP_TRANSPORT" := "stdio" ]} "sse" /\
   exists opts,
     outcome (resolve_runtime_options (Namespace.mk (Some "sse") None None)
                                      {[ "MCP_TRANSPORT" := "stdio" ]}) = Ret opts /\
     transport opts = "sse") /\
  (supplied_transport no_args {[ "MCP_TRANSPORT" := "bogus" ]} "bogus" /\
   exists opts,
     outcome (resolve_runtime_options no_args {[ "MCP_TRANSPORT" := "bogus" ]})
       = Ret opts /\
     transport opts = "stdio" /\
     In (Stderr "[WARN] Unsupported MCP transport 'bogus', falling back to 'stdio'")
        (trace (resolve_runtime_options no_args {[ "MCP_TRANSPORT" := "bogus" ]}))).
Proof.
  split.
  - assert (supplied_transport (Namespace.mk (Some "sse") None None)
                               {[ "MCP_TRANSPORT" := "stdio" ]} "sse") as Hs
      by (left; reflexivity).
    split; [exact Hs |].
    destruct (C1_transport_resolution (Namespace.mk (Some "sse") None None)
                {[ "MCP_TRANSPORT" := "stdio" ]}) as (opts & Ho & H1 & _).
    exists opts. split; [exact Ho |].
    apply (H1 "sse" Hs).
    + discriminate.
    + apply valid_transport_iff. right; left; reflexivity.
  - assert (supplied_transport no_args {[ "MCP_TRANSPORT" := "bogus" ]} "bogus")
      as Hs by (right; split; reflexivity).
    split; [exact Hs |].
    destruct (C1_transport_resolution no_args {[ "MCP_TRANSPORT" := "bogus" ]})
      as (opts & Ho & _ & H2 & _).
    exists opts. split; [exact Ho |].
    apply (H2 "bogus" Hs); [discriminate | exact bogus_unsupported].
Defined.

(** C1 as stated fails: the empty string is unsupported and is supplied
    through [MCP_TRANSPORT], the resolved transport is ["stdio"], yet
    nothing is written to the diagnostic stream. *)
Lemma C1_empty_transport_no_warning :
  ("" ∉ VALID_TRANSPORTS) /\
  supplied_transport no_args {[ "MCP_TRANSPORT" := "" ]} "" /\
  resolve_runtime_options no_args {[ "MCP_TRANSPORT" := "" ]} =
    ([], Ret {| transport := "stdio"; host := "127.0.0.1"; port := 8000 |}) /\
  stderr_lines (trace (resolve_runtime_options no_args {[ "MCP_TRANSPORT" := "" ]}))
    = [].
Proof.
  split; [| split; [| split]].
  - rewrite valid_transport_iff. intros [H | [H | H]]; discriminate H.
  - right. split; reflexivity.
  - reflexivity.
  - reflexivity.
Qed.

(** ** Port *)

(** C3 (amended).  The port input that [resolve_runtime_options] looks at
    is the integer of [--port] when the flag is given, otherwise the first
    non-empty value among [MCP_HTTP_PORT], [MCP_SERVER_PORT], [MCP_PORT].
    When that input is 0, negative or at least 65536, or (from the
    environment) is not the text of an integer, the resolved port is 8000
    and a warning is written to the diagnostic stream.  A [--port] value
    that is not the text of an integer never reaches resolution: the
    argument parser exits with status 2. *)
Theorem C3_invalid_port_falls_back (args : Namespace.t) (env : environ) :
  exists opts,
    outcome (resolve_runtime_options args env) = Ret opts /\
    (forall p, Namespace.port args = Some p -> ~ in_range p ->
       port opts = 8000 /\
       In (Stderr (port_range_warning p 8000))
          (trace (resolve_runtime_options args env))) /\
    (forall name s,
       Namespace.port args = None ->
       first_nonempty env PORT_ENV_NAMES name s ->
       (Py.int s = None ->
          port opts = 8000 /\
          In (Stderr (invalid_port_warning (PortStr s) 8000))
             (trace (resolve_runtime_options args env))) /\
       (forall p, Py.int s = Some p -> ~ in_range p ->
          port opts = 8000 /\
          In (Stderr (port_range_warning p 8000))
             (trace (resolve_runtime_options args env)))) /\
    (forall argv raw,
       flag_port argv = Some raw -> Py.int raw = None ->
       outcome (parse_cli_args argv) = SysExit 2).
Proof.
  destruct (resolve_runtime_options_returns args env)
    as (w0 & p0 & Hp0 & _ & _ & Heq).
  destruct (resolve_runtime_options_port _ _ _ _ Hp0) as (opts & Ho & Hport & Hin).
  exists opts. split; [exact Ho |]. split; [| split].
  - intros p Hp Hr.
    assert (port_source args env = Some (PortInt p)) as Hsrc
      by (unfold port_source; rewrite Hp; reflexivity).
    rewrite Hsrc, (_parse_port_out_of_range (PortInt p) p) in Hp0
      by (reflexivity || assumption).
    injection Hp0 as <- <-. split; [exact Hport | apply Hin; left; reflexivity].
  - intros name s Hnone Hfirst.
    rewrite (port_source_env _ _ _ _ Hnone Hfirst) in Hp0. split.
    + intros Hint.
      rewrite (_parse_port_invalid (PortStr s)) in Hp0 by exact Hint.
      injection Hp0 as <- <-. split; [exact Hport | apply Hin; left; reflexivity].
    + intros p Hint Hr.
      rewrite (_parse_port_out_of_range (PortStr s) p) in Hp0 by assumption.
      injection Hp0 as <- <-. split; [exact Hport | apply Hin; left; reflexivity].
  - intros argv raw Hraw Hint. unfold parse_cli_args. rewrite Hraw, Hint.
    destruct (flag_transport argv) as [t|]; [| reflexivity].
    destruct (decide (t ∈ VALID_TRANSPORTS)); reflexivity.
Qed.

Lemma only_MCP_PORT (v : string) :
  v <> "" -> first_nonempty {[ "MCP_PORT" := v ]} PORT_ENV_NAMES "MCP_PORT" v.
Proof.
  intros Hv. exists ["MCP_HTTP_PORT"; "MCP_SERVER_PORT"], [].
  split; [reflexivity |]. split; [| split; [reflexivity | exact Hv]].
  repeat constructor; left; reflexivity.
Defined.

Lemma C3_invalid_port_falls_back_witness :
  (exists opts,
     outcome (resolve_runtime_options (Namespace.mk None None (Some 70000)) ∅)
       = Ret opts /\
     port opts = 8000 /\
     In (Stderr "[WARN] MCP port '70000' out of range, falling back to 8000")
        (trace (resolve_runtime_options (Namespace.mk None None (Some 70000)) ∅))) /\
  (exists opts,
     outcome (resolve_runtime_options no_args {[ "MCP_PORT" := "http" ]})
       = Ret opts /\
     port opts = 8000 /\
     In (Stderr "[WARN] Invalid MCP port 'http', falling back to 8000")
        (trace (resolve_runtime_options no_args {[ "MCP_PORT" := "http" ]}))) /\
  outcome (parse_cli_args {| flag_transport := None; flag_host := None;
                             flag_port := Some "http" |}) = SysExit 2.
Proof.
  split; [| split].
  - destruct (C3_invalid_port_falls_back (Namespace.mk None None (Some 70000)) ∅)
      as (opts & Ho & H1 & _ & _).
    exists opts. split; [exact Ho |].
    apply (H1 70000 eq_refl). unfold in_range. lia.
  - destruct (C3_invalid_port_falls_back no_args {[ "MCP_PORT" := "http" ]})
      as (opts & Ho & _ & H2 & _).
    exists opts. split; [exact Ho |].
    refine (proj1 (H2 "MCP_PORT" "http" eq_refl (only_MCP_PORT "http" _)) eq_refl).
    discriminate.
  - destruct (C3_invalid_port_falls_back no_args ∅) as (_ & _ & _ & _ & H3).
    apply (H3 _ "http"); reflexivity.
Defined.

(** C3 as stated fails: the empty string is not the text of an integer and
    is supplied through [MCP_PORT]; the resolved port is 8000 but nothing is
    written to the diagnostic stream. *)
Lemma C3_empty_port_no_warning :
  Py.int "" = None /\
  ({[ "MCP_PORT" := "" ]} : environ) !! "MCP_PORT" = Some "" /\
  resolve_runtime_options no_args {[ "MCP_PORT" := "" ]} =
    ([], Ret {| transport := "stdio"; host := "127.0.0.1"; port := 8000 |}) /\
  stderr_lines (trace (resolve_runtime_options no_args {[ "MCP_PORT" := "" ]}))
    = [].
Proof. repeat split. Qed.

(** C4.  For every port [p] with [0 < p < 65536]: given as [--port], the
    resolved port is [p] whatever the environment holds; without the flag,
    when the first non-empty value among [MCP_HTTP_PORT], [MCP_SERVER_PORT],
    [MCP_PORT], in that order, is text that [int] reads as [p], the resolved
    port is [p]; and the decimal text of [p] is such a text. *)
Theorem C4_valid_port_resolved (args : Namespace.t) (env : environ) (p : Z) :
  in_range p ->
  exists opts,
    outcome (resolve_runtime_options args env) = Ret opts /\
    (Namespace.port args = Some p -> port opts = p) /\
    (Namespace.port args = None ->
     forall name s,
       first_nonempty env PORT_ENV_NAMES name s ->
       Py.int s = Some p ->
       port opts = p) /\
    Py.int (Py.str p) = Some p.
Proof.
  intros Hr.
  destruct (resolve_runtime_options_returns args env)
    as (w0 & p0 & Hp0 & _ & _ & _).
  destruct (resolve_runtime_options_port _ _ _ _ Hp0) as (opts & Ho & Hport & _).
  exists opts. split; [exact Ho |]. split; [| split].
  - intros Hp.
    assert (port_source args env = Some (PortInt p)) as Hsrc
      by (unfold port_source; rewrite Hp; reflexivity).
    rewrite Hsrc, (_parse_port_valid (PortInt p) p) in Hp0
      by (reflexivity || assumption).
    injection Hp0 as _ <-. exact Hport.
  - intros Hnone name s Hfirst Hint.
    rewrite (port_source_env _ _ _ _ Hnone Hfirst) in Hp0.
    rewrite (_parse_port_valid (PortStr s) p) in Hp0 by assumption.
    injection Hp0 as _ <-. exact Hport.
  - apply int_str.
Qed.

Lemma C4_valid_port_resolved_witness :
  in_range 9999 /\
  (exists opts,
     outcome (resolve_runtime_options (Namespace.mk None None (Some 9999))
                                      {[ "MCP_PORT" := "1234" ]}) = Ret opts /\
     port opts = 9999) /\
  (exists opts,
     outcome (resolve_runtime_options no_args {[ "MCP_PORT" := "9999" ]})
       = Ret opts /\
     port opts = 9999).
Proof.
  assert (in_range 9999) as Hr by (unfold in_range; lia).
  split; [exact Hr |]. split.
  - destruct (C4_valid_port_resolved (Namespace.mk None None (Some 9999))
                {[ "MCP_PORT" := "1234" ]} 9999 Hr) as (opts & Ho & H1 & _).
    exists opts. split; [exact Ho | exact (H1 eq_refl)].
  - destruct (C4_valid_port_resolved no_args {[ "MCP_PORT" := "9999" ]} 9999 Hr)
      as (opts & Ho & _ & H2 & _).
    exists opts. split; [exact Ho |].
    apply (H2 eq_refl "MCP_PORT" "9999"); [| reflexivity].
    apply only_MCP_PORT. discriminate.
Defined.

(** C7.  For every namespace and environment, [resolve_runtime_options]
    returns, and the options it returns have a transport in
    [VALID_TRANSPORTS] and a port with [0 < port < 65536]. *)
Theorem C7_resolved_options_valid (args : Namespace.t) (env : environ) :
  exists opts,
    outcome (resolve_runtime_options args env) = Ret opts /\
    transport opts ∈ VALID_TRANSPORTS /\
    0 < port opts < 65536.
Proof.
  destruct (resolve_runtime_options_returns args env)
    as (w & p & _ & Hp & _ & ->).
  eexists. split; [reflexivity |]. cbn [transport port]. split.
  - destruct (decide (chosen_transport args env ∈ VALID_TRANSPORTS)) as [H | _];
      [exact H | apply valid_transport_iff; auto].
  - destruct Hp as [-> | Hp]; [unfold DEFAULT_HTTP_PORT; lia | exact Hp].
Qed.

(** ** Host *)

(** C8 (amended).  When [--host] is given with a non-empty value, that
    value is the resolved host; when the flag is absent or empty, the first
    non-empty value among [MCP_HTTP_HOST], [MCP_SERVER_HOST], [MCP_HOST], in
    that order, is the resolved host; when the flag is absent or empty and
    all three are unset or empty, the resolved host is ["127.0.0.1"]. *)
Theorem C8_host_precedence (args : Namespace.t) (env : environ) :
  exists opts,
    outcome (resolve_runtime_options args env) = Ret opts /\
    (forall h, Namespace.host args = Some h -> h <> "" -> host opts = h) /\
    (forall name h,
       Py.truthy (Namespace.host args) = false ->
       first_nonempty env HOST_ENV_NAMES name h ->
       host opts = h) /\
    (Py.truthy (Namespace.host args) = false ->
     Forall (unset_or_empty env) HOST_ENV_NAMES ->
     host opts = "127.0.0.1").
Proof.
  destruct (resolve_runtime_options_returns args env)
    as (w & p & _ & _ & _ & ->).
  eexists. split; [reflexivity |]. cbn [host]. split; [| split].
  - intros h Hh Hne. apply chosen_host_flag; assumption.
  - intros name h Hf Hn. eapply chosen_host_env; eassumption.
  - intros Hf Hn. apply chosen_host_default; assumption.
Qed.

Lemma C8_host_precedence_witness :
  (exists opts,
     outcome (resolve_runtime_options (Namespace.mk None (Some "0.0.0.0") None)
                                      {[ "MCP_HOST" := "10.0.0.1" ]}) = Ret opts /\
     host opts = "0.0.0.0") /\
  (exists opts,
     outcome (resolve_runtime_options no_args
                {[ "MCP_SERVER_HOST" := "10.0.0.2"; "MCP_HOST" := "10.0.0.1" ]})
       = Ret opts /\
     host opts = "10.0.0.2") /\
  (exists opts,
     outcome (resolve_runtime_options no_args ∅) = Ret opts /\
     host opts = "127.0.0.1").
Proof.
  split; [| split].
  - destruct (C8_host_precedence (Namespace.mk None (Some "0.0.0.0") None)
                {[ "MCP_HOST" := "10.0.0.1" ]}) as (opts & Ho & H1 & _ & _).
    exists opts. split; [exact Ho |]. apply H1; [reflexivity | discriminate].
  - destruct (C8_host_precedence no_args
                {[ "MCP_SERVER_HOST" := "10.0.0.2"; "MCP_HOST" := "10.0.0.1" ]})
      as (opts & Ho & _ & H2 & _).
    exists opts. split; [exact Ho |].
    apply (H2 "MCP_SERVER_HOST"); [reflexivity |].
    exists ["MCP_HTTP_HOST"], ["MCP_HOST"].
    split; [reflexivity |]. split; [| split; [reflexivity | discriminate]].
    repeat constructor; left; reflexivity.
  - destruct (C8_host_precedence no_args ∅) as (opts & Ho & _ & _ & H3).
    exists opts. split; [exact Ho |].
    apply H3; [reflexivity |]. repeat constructor; left; reflexivity.
Defined.

(** C8 as stated fails: [--host] given with the empty string is accepted by
    the parser, and does not win over [MCP_HOST]. *)
Lemma C8_empty_host_flag_loses :
  parse_cli_args {| flag_transport := None; flag_host := Some "";
                    flag_port := None |}
    = ([], Ret (Namespace.mk None (Some "") None)) /\
  resolve_runtime_options (Namespace.mk None (Some "") None)
                          {[ "MCP_HOST" := "10.0.0.1" ]}
    = ([], Ret {| transport := "stdio"; host := "10.0.0.1"; port := 8000 |}) /\
  "10.0.0.1" <> "".
Proof. repeat split. discriminate. Qed.

(** ** The port flag shadows the environment *)

Lemma port_names_disjoint (name : string) :
  name = "MCP_TRANSPORT" \/ In name HOST_ENV_NAMES -> ~ In name PORT_ENV_NAMES.
Proof.
  unfold HOST_ENV_NAMES, PORT_ENV_NAMES. simpl.
  intros [-> | [<- | [<- | [<- | []]]]] [H | [H | [H | []]]]; discriminate H.
Qed.

(** C10.  When [--port] is given with an integer [p], the three port
    variables are not read: two environments that agree on every other name
    resolve alike, warnings included; and the resolved port is [p] when
    [0 < p < 65536] and 8000 otherwise. *)
Theorem C10_port_flag_ignores_env (args : Namespace.t) (env : environ) (p : Z) :
  Namespace.port args = Some p ->
  (forall env' : environ,
     (forall name, ~ In name PORT_ENV_NAMES -> env' !! name = env !! name) ->
     resolve_runtime_options args env' = resolve_runtime_options args env) /\
  exists opts,
    outcome (resolve_runtime_options args env) = Ret opts /\
    port opts = if (0 <? p) && (p <? 65536) then p else 8000.
Proof.
  intros Hp. split.
  - intros env' Hagree. unfold resolve_runtime_options. rewrite Hp.
    rewrite (Hagree "MCP_TRANSPORT") by (apply port_names_disjoint; auto).
    rewrite (_first_env_agree env' env HOST_ENV_NAMES); [reflexivity |].
    intros name Hn. apply Hagree, port_names_disjoint. auto.
  - assert (port_source args env = Some (PortInt p)) as Hsrc
      by (unfold port_source; rewrite Hp; reflexivity).
    destruct ((0 <? p) && (p <? 65536)) eqn:E.
    + apply range_test in E.
      destruct (resolve_runtime_options_port args env [] p)
        as (opts & Ho & Hport & _).
      { rewrite Hsrc.
        apply (_parse_port_valid (PortInt p) p); [reflexivity | exact E]. }
      exists opts. split; [exact Ho | exact Hport].
    + assert (~ in_range p) as Hr
        by (intros H; apply range_test in H; congruence).
      destruct (resolve_runtime_options_port args env
                  [Stderr (port_range_warning p DEFAULT_HTTP_PORT)] DEFAULT_HTTP_PORT)
        as (opts & Ho & Hport & _).
      { rewrite Hsrc.
        apply (_parse_port_out_of_range (PortInt p) p); [reflexivity | exact Hr]. }
      exists opts. split; [exact Ho | exact Hport].
Qed.

Lemma C10_port_flag_ignores_env_witness :
  resolve_runtime_options (Namespace.mk None None (Some 0)) {[ "MCP_PORT" := "9999" ]}
    = resolve_runtime_options (Namespace.mk None None (Some 0)) ∅ /\
  exists opts,
    outcome (resolve_runtime_options (Namespace.mk None None (Some 0))
                                     {[ "MCP_PORT" := "9999" ]}) = Ret opts /\
    port opts = 8000.
Proof.
  split.
  - apply (C10_port_flag_ignores_env (Namespace.mk None None (Some 0)) ∅ 0 eq_refl).
    intros name Hn. rewrite lookup_empty. apply lookup_singleton_None.
    intros <-. apply Hn. simpl. auto.
  - exact (proj2 (C10_port_flag_ignores_env (Namespace.mk None None (Some 0))
                    {[ "MCP_PORT" := "9999" ]} 0 eq_refl)).
Defined.

(** ** setup_environment *)

Lemma check_required_eq (env : environ) (vars missing_vars : list string) :
  check_required env vars missing_vars =
    (map Stdout (shown_required env vars),
     Ret (missing_vars ++ missing_of env vars)%list).
Proof.
  revert missing_vars. induction vars as [|var vars IH]; intros missing_vars.
  - simpl. rewrite app_nil_r. reflexivity.
  - cbn [check_required shown_required missing_of List.filter omap list_omap].
    destruct (env !! var) as [[|c v]|]; cbn [Py.truthy negb];
      unfold mbind, mret, Proc_bind, Proc_ret, print, emit;
      rewrite IH; cbn [app map]; rewrite <- ?app_assoc; reflexivity.
Qed.

Lemma missing_of_nil_iff (env : environ) (vars : list string) :
  missing_of env vars = [] <->
  Forall (fun var => ~ unset_or_empty env var) vars.
Proof.
  unfold unset_or_empty. induction vars as [|var vars IH]; simpl.
  - split; auto.
  - destruct (Py.truthy (env !! var)) eqn:Ht; simpl.
    + rewrite IH. apply truthy_true_iff in Ht as (s & Hs & Hne). split.
      * intros H. constructor; [| exact H]. rewrite Hs. intros [|]; congruence.
      * intros H. apply Forall_cons in H as [_ H]. exact H.
    + apply truthy_false_iff in Ht. split; [discriminate |].
      intros H. apply Forall_cons in H as [H _]. contradiction.
Qed.

Lemma missing_of_In (env : environ) (vars : list string) (var : string) :
  In var (missing_of env vars) <-> In var vars /\ unset_or_empty env var.
Proof.
  unfold missing_of, unset_or_empty. rewrite filter_In, negb_true_iff.
  rewrite truthy_false_iff. reflexivity.
Qed.

Lemma missing_of_cons_iff (env : environ) (vars : list string) :
  missing_of env vars <> [] <->
  exists var, In var vars /\ unset_or_empty env var.
Proof.
  split.
  - destruct (missing_of env vars) as [|var l] eqn:E; [congruence |].
    intros _. exists var. apply missing_of_In. rewrite E. left. reflexivity.
  - intros (var & Hv) E. apply missing_of_In in Hv. rewrite E in Hv. destruct Hv.
Qed.

(** What is printed and returned when something is missing. *)
Lemma setup_environment_missing (options : RuntimeOptions) (env : environ) :
  missing_of env required_vars <> [] ->
  setup_environment options env =
    (map Stdout (config_header :: shown_required env required_vars ++
                 missing_lines (missing_of env required_vars))%list,
     Ret false).
Proof.
  intros Hm. unfold setup_environment, print, emit.
  rewrite (bind_Ret _ _ _ _ eq_refl), check_required_eq.
  rewrite (bind_Ret _ _ _ _ eq_refl). cbn [app].
  destruct (missing_of env required_vars) as [|m l] eqn:E; [congruence |].
  unfold mbind, mret, Proc_bind, Proc_ret, trace, outcome.
  cbn [fst snd app map]. rewrite map_app. reflexivity.
Qed.

(** What is printed and returned when nothing is missing. *)
Lemma setup_environment_complete (options : RuntimeOptions) (env : environ) :
  missing_of env required_vars = [] ->
  setup_environment options env =
    (map Stdout (config_header :: shown_required env required_vars ++
                 optional_lines env ++ runtime_lines options)%list,
     Ret true).
Proof.
  intros Hm. unfold setup_environment, print, emit.
  rewrite (bind_Ret _ _ _ _ eq_refl), check_required_eq.
  rewrite (bind_Ret _ _ _ _ eq_refl). cbn [app]. rewrite Hm.
  unfold runtime_lines, optional_lines, optional_vars.
  cbn [show_optional map].
  unfold mbind, mret, Proc_bind, Proc_ret, print, emit, trace, outcome.
  destruct (String.eqb (transport options) "stdio");
    cbn [fst snd app map]; rewrite !map_app; reflexivity.
Qed.

Lemma shown_required_In (env : environ) (vars : list string) (line : string) :
  In line (shown_required env vars) <->
  exists var value,
    In var vars /\ env !! var = Some value /\ value <> "" /\
    line = config_line var (display_value var value).
Proof.
  unfold shown_required. rewrite <- list_elem_of_In, list_elem_of_omap.
  split.
  - intros (var & Hin & Hl). apply list_elem_of_In in Hin.
    destruct (env !! var) as [[|c v]|] eqn:E; try discriminate.
    injection Hl as <-. exists var, (String c v). repeat split; auto.
  - intros (var & value & Hin & Hv & Hne & ->). exists var.
    split; [apply list_elem_of_In; exact Hin |].
    rewrite Hv. destruct value; [congruence | reflexivity].
Qed.

Lemma summary_lines_recognised (options : RuntimeOptions) (env : environ)
    (line : string) :
  In line (optional_lines env ++ runtime_lines options) ->
  is_summary_line line = true.
Proof.
  unfold optional_lines, runtime_lines, optional_vars. cbn [map app].
  destruct (String.eqb (transport options) "stdio"); cbn [app In];
    intros H; repeat (destruct H as [<- | H]; [reflexivity |]); destruct H.
Qed.

Lemma failure_lines_not_summary (env : environ) (line : string) :
  In line (config_header :: shown_required env required_vars ++
           missing_lines (missing_of env required_vars)) ->
  is_summary_line line = false.
Proof.
  intros [<- | H]; [reflexivity |].
  apply in_app_or in H as [H | H].
  - apply shown_required_In in H as (var & value & Hin & _ & _ & ->).
    unfold required_vars in Hin. cbn [In] in Hin.
    repeat (destruct Hin as [<- | Hin]; [reflexivity |]). destruct Hin.
  - unfold missing_lines in H. cbn [In] in H.
    repeat (destruct H as [<- | H]; [reflexivity |]). destruct H.
Qed.

Lemma In_map_Stdout (line : string) (lines : list string) :
  In (Stdout line) (map Stdout lines) <-> In line lines.
Proof.
  rewrite in_map_iff. split.
  - intros (l & [= ->] & H). exact H.
  - intros H. exists line. auto.
Qed.

(** C2 (amended).  When all three required variables are set and
    non-empty, [setup_environment] prints the header, the required
    variables, the four optional variables (with ["default"] for an unset
    one) and the resolved runtime settings, and returns [True].  When a
    required variable is unset or empty, it prints the header, the required
    variables that are present, the list of missing names and the
    remediation text, and returns [False]: none of the optional-variable or
    runtime-settings lines is printed. *)
Theorem C2_summary_printed_on_success_only (options : RuntimeOptions)
    (env : environ) :
  (Forall (fun var => ~ unset_or_empty env var) required_vars ->
   setup_environment options env =
     (map Stdout (config_header :: shown_required env required_vars ++
                  optional_lines env ++ runtime_lines options)%list,
      Ret true)) /\
  ((exists var, In var required_vars /\ unset_or_empty env var) ->
   setup_environment options env =
     (map Stdout (config_header :: shown_required env required_vars ++
                  missing_lines (missing_of env required_vars))%list,
      Ret false) /\
   forall line,
     In line (optional_lines env ++ runtime_lines options) ->
     ~ In (Stdout line) (trace (setup_environment options env))).
Proof.
  split.
  - intros H. apply setup_environment_complete, missing_of_nil_iff, H.
  - intros H. apply missing_of_cons_iff in H.
    rewrite (setup_environment_missing options env H).
    split; [reflexivity |].
    intros line Hs Hin. unfold trace, fst in Hin. apply In_map_Stdout in Hin.
    apply summary_lines_recognised in Hs.
    apply failure_lines_not_summary in Hin. congruence.
Qed.

Lemma credentials_complete :
  Forall (fun var => ~ unset_or_empty credentials var) required_vars.
Proof.
  repeat constructor; intros [H | H]; vm_compute in H; discriminate H.
Defined.

Lemma no_password_incomplete :
  exists var, In var required_vars /\ unset_or_empty no_password var.
Proof.
  exists "OTRS_PASSWORD". split; [right; right; left; reflexivity |].
  left. reflexivity.
Defined.

Lemma C2_summary_printed_on_success_only_witness :
  stdout_lines (trace (setup_environment default_options credentials)) =
    [ "[CONFIG] OTRS MCP Server Configuration:";
      "  OTRS_BASE_URL: https://otrs.example/ws";
      "  OTRS_USERNAME: agent";
      "  OTRS_PASSWORD: ******";
      "  OTRS_VERIFY_SSL: default";
      "  OTRS_DEFAULT_QUEUE: default";
      "  OTRS_DEFAULT_STATE: default";
      "  OTRS_DEFAULT_PRIORITY: default";
      nl +:+ "[CONFIG] MCP Runtime Settings:";
      "  MCP_TRANSPORT: stdio";
      "  MCP_HOST: 127.0.0.1";
      "  MCP_PORT: 8000";
      "  (host/port affect HTTP transports only)" ] /\
  outcome (setup_environment default_options no_password) = Ret false /\
  ~ In (Stdout "  MCP_PORT: 8000")
       (trace (setup_environment default_options no_password)).
Proof.
  split; [| split].
  - rewrite (proj1 (C2_summary_printed_on_success_only default_options credentials)
               credentials_complete).
    reflexivity.
  - rewrite (proj1 (proj2 (C2_summary_printed_on_success_only
                             default_options no_password)
                      no_password_incomplete)).
    reflexivity.
  - apply (proj2 (proj2 (C2_summary_printed_on_success_only
                           default_options no_password)
                    no_password_incomplete)).
    right; right; right; right; right; right; right; left. reflexivity.
Defined.

(** C2 as stated fails: with [OTRS_PASSWORD] missing, what is printed stops
    after the remediation text; no optional variable and no runtime setting
    is shown. *)
Lemma C2_no_summary_when_password_missing :
  setup_environment default_options no_password =
    ([ Stdout "[CONFIG] OTRS MCP Server Configuration:";
       Stdout "  OTRS_BASE_URL: https://otrs.example/ws";
       Stdout "  OTRS_USERNAME: agent";
       Stdout "[ERROR] Missing required environment variables: OTRS_PASSWORD";
       Stdout (nl +:+ "[INFO] Set these environment variables:");
       Stdout "  export OTRS_BASE_URL='https://your-otrs-server/otrs/nph-genericinterface.pl/Webservice/TestInterface'";
       Stdout "  export OTRS_USERNAME='your-username'";
       Stdout "  export OTRS_PASSWORD='your-password'";
       Stdout "  export OTRS_VERIFY_SSL='false'  # Optional, for self-signed certificates" ],
     Ret false) /\
  ~ In (Stdout "  OTRS_VERIFY_SSL: default")
       (trace (setup_environment default_options no_password)) /\
  ~ In (Stdout "  MCP_TRANSPORT: stdio")
       (trace (setup_environment default_options no_password)).
Proof.
  split; [reflexivity |].
  split; intros H; vm_compute in H;
    repeat (destruct H as [H | H]; [discriminate H |]); exact H.
Qed.

(** C5.  [setup_environment] returns, and returns [False] exactly when at
    least one of [OTRS_BASE_URL], [OTRS_USERNAME], [OTRS_PASSWORD] is unset
    or empty. *)
Theorem C5_failure_iff_credential_missing (options : RuntimeOptions)
    (env : environ) :
  exists ok,
    outcome (setup_environment options env) = Ret ok /\
    (ok = false <->
     unset_or_empty env "OTRS_BASE_URL" \/
     unset_or_empty env "OTRS_USERNAME" \/
     unset_or_empty env "OTRS_PASSWORD").
Proof.
  assert ((exists var, In var required_vars /\ unset_or_empty env var) <->
          unset_or_empty env "OTRS_BASE_URL" \/
          unset_or_empty env "OTRS_USERNAME" \/
          unset_or_empty env "OTRS_PASSWORD") as Hnames.
  { unfold required_vars. cbn [In]. split.
    - intros (var & [<- | [<- | [<- | []]]] & H); auto.
    - intros [H | [H | H]]; eauto 6. }
  destruct (missing_of env required_vars) as [|m l] eqn:E.
  - exists true. rewrite (setup_environment_complete options env E).
    split; [reflexivity |]. split; [discriminate |].
    intros H. apply Hnames, missing_of_cons_iff in H. congruence.
  - assert (missing_of env required_vars <> []) as Hm by congruence.
    exists false. rewrite (setup_environment_missing options env Hm).
    split; [reflexivity |]. split; [| reflexivity].
    intros _. apply Hnames, missing_of_cons_iff, Hm.
Qed.

(** C9.  For every required variable whose name contains [PASSWORD] and
    every non-empty value of it, the line that [setup_environment] prints
    for it shows a string of asterisks with exactly as many characters as
    the value. *)
Theorem C9_password_mask_length (options : RuntimeOptions) (env : environ)
    (var value : string) :
  In var required_vars ->
  Py.contains "PASSWORD" var = true ->
  env !! var = Some value ->
  value <> "" ->
  In (Stdout (config_line var (display_value var value)))
     (trace (setup_environment options env)) /\
  display_value var value = Py.repeat "*" (String.length value) /\
  String.length (display_value var value) = String.length value.
Proof.
  intros Hin Hc Hv Hne.
  assert (display_value var value = Py.repeat "*" (String.length value)) as Hd
    by (unfold display_value; rewrite Hc; reflexivity).
  split; [| split; [exact Hd | rewrite Hd; apply length_repeat]].
  assert (In (config_line var (display_value var value))
             (shown_required env required_vars)) as Hshown
    by (apply shown_required_In; eauto 8).
  destruct (missing_of env required_vars) as [|m l] eqn:E.
  - rewrite (setup_environment_complete options env E).
    unfold trace, fst. apply In_map_Stdout. right.
    apply in_or_app. left. exact Hshown.
  - assert (missing_of env required_vars <> []) as Hm by congruence.
    rewrite (setup_environment_missing options env Hm).
    unfold trace, fst. apply In_map_Stdout. right.
    apply in_or_app. left. exact Hshown.
Qed.

Lemma C9_password_mask_length_witness :
  In (Stdout "  OTRS_PASSWORD: ******")
     (trace (setup_environment default_options credentials)) /\
  String.length (display_value "OTRS_PASSWORD" "secret") = 6%nat.
Proof.
  destruct (C9_password_mask_length default_options credentials
              "OTRS_PASSWORD" "secret") as (H1 & _ & H3).
  - right; right; left; reflexivity.
  - reflexivity.
  - reflexivity.
  - discriminate.
  - split; [exact H1 | exact H3].
Defined.

(** ** parse_cli_args *)

(** The parser returns without output, or reports one flag and exits
    with status 2. *)
Lemma parse_cli_args_cases (argv : Argv) :
  (exists args, parse_cli_args argv = ([], Ret args)) \/
  (exists flag raw, parse_cli_args argv = ([ArgparseError flag raw], SysExit 2)).
Proof.
  unfold parse_cli_args.
  destruct (flag_transport argv) as [t|];
    [destruct (decide (t ∈ VALID_TRANSPORTS)); [| right; eauto] |];
    (destruct (flag_port argv) as [raw|];
     [destruct (Py.int raw); [left | right]; eauto | left; eauto]).
Qed.

(** It accepts a command line whose [--transport], if given, is one of
    the choices and whose [--port], if given, is the text of an integer. *)
Lemma parse_cli_args_accepts (argv : Argv) :
  (forall t, flag_transport argv = Some t -> t ∈ VALID_TRANSPORTS) ->
  (forall raw, flag_port argv = Some raw -> exists n, Py.int raw = Some n) ->
  parse_cli_args argv =
    ([], Ret (Namespace.mk (flag_transport argv) (flag_host argv)
                           (flag_port argv ≫= Py.int))).
Proof.
  intros Ht Hp. unfold parse_cli_args.
  destruct (flag_transport argv) as [t|];
    [destruct (decide (t ∈ VALID_TRANSPORTS)) as [_ | Hn];
     [| exfalso; apply Hn, Ht; reflexivity] |];
    (destruct (flag_port argv) as [raw|];
     [destruct (Hp raw eq_refl) as (n & Hn); cbn [mbind option_bind];
      rewrite Hn |]; reflexivity).
Qed.

(** ** run_server *)

Lemma resolve_runtime_options_quiet (args : Namespace.t) (env : environ) :
  exists tr opts,
    resolve_runtime_options args env = (tr, Ret opts) /\
    forall e, In e tr -> is_runtime_event e = false.
Proof.
  destruct (resolve_runtime_options_returns args env)
    as (w & p & _ & _ & Hw & ->).
  eexists _, _. split; [reflexivity |].
  intros e He. apply in_app_or in He as [He | He].
  - destruct (decide (chosen_transport args env ∈ VALID_TRANSPORTS));
      [destruct He | destruct He as [<- | []]; reflexivity].
  - destruct (Hw e He) as (line & -> & _). reflexivity.
Qed.

(** A run that finds a required variable missing. *)
Lemma run_server_missing (argv : Argv) (env : environ) (args : Namespace.t)
    (tr : list event) (opts : RuntimeOptions) :
  parse_cli_args argv = ([], Ret args) ->
  resolve_runtime_options args env = (tr, Ret opts) ->
  missing_of env required_vars <> [] ->
  run_server argv env =
    ((tr ++ map Stdout (config_header :: shown_required env required_vars ++
                        missing_lines (missing_of env required_vars)))%list,
     SysExit 1).
Proof.
  intros Hparse Hres Hm. unfold run_server.
  rewrite (bind_Ret _ _ _ _ Hparse), (bind_Ret _ _ _ _ Hres).
  rewrite (bind_Ret _ _ _ _ (setup_environment_missing opts env Hm)).
  cbn [negb]. unfold sys_exit, mbind, Proc_bind, trace, outcome.
  cbn [fst snd app]. rewrite app_nil_r. reflexivity.
Qed.

(** A run with every required variable present: the settings are pushed
    and the server runtime is started with the resolved transport. *)
Lemma run_server_starts (argv : Argv) (env : environ) (args : Namespace.t)
    (tr : list event) (opts : RuntimeOptions) :
  parse_cli_args argv = ([], Ret args) ->
  resolve_runtime_options args env = (tr, Ret opts) ->
  missing_of env required_vars = [] ->
  exists before banner,
    run_server argv env =
      ((before ++ [SetHost (host opts); SetPort (port opts)] ++
        map Stdout banner ++ [McpRun (transport opts)])%list,
       Ret tt).
Proof.
  intros Hparse Hres Hm. unfold run_server.
  rewrite (bind_Ret _ _ _ _ Hparse), (bind_Ret _ _ _ _ Hres).
  rewrite (bind_Ret _ _ _ _ (setup_environment_complete opts env Hm)).
  cbn [negb]. unfold apply_runtime_settings, print, emit.
  unfold mret, mbind, Proc_bind, Proc_ret, trace, outcome.
  destruct (negb (String.eqb (transport opts) "stdio")); cbn [fst snd app].
  - eexists _, [_; _; _; _]. rewrite !app_assoc. reflexivity.
  - eexists _, [_; _; _]. rewrite !app_assoc. reflexivity.
Qed.

(** C6 (amended).  When one of the required variables is unset or empty, a
    run never touches the server runtime (no setting is pushed, [mcp.run]
    is not called) and never returns normally.  When the argument parser
    returns a namespace the process exits with status 1; when the parser
    itself ends the process (status 2 for a usage error) the run ends with
    the parser's status. *)
Theorem C6_missing_credential_exits (argv : Argv) (env : environ) :
  unset_or_empty env "OTRS_BASE_URL" \/
  unset_or_empty env "OTRS_USERNAME" \/
  unset_or_empty env "OTRS_PASSWORD" ->
  (forall e, In e (trace (run_server argv env)) -> is_runtime_event e = false) /\
  (forall args, outcome (parse_cli_args argv) = Ret args ->
                outcome (run_server argv env) = SysExit 1) /\
  (forall code, outcome (parse_cli_args argv) = SysExit code ->
                outcome (run_server argv env) = SysExit code) /\
  (forall u, outcome (run_server argv env) <> Ret u).
Proof.
  intros Hmissing.
  assert (missing_of env required_vars <> []) as Hm.
  { apply missing_of_cons_iff. unfold required_vars. cbn [In].
    destruct Hmissing as [H | [H | H]]; eauto 6. }
  destruct (parse_cli_args_cases argv) as [(args & Hparse) | (flag & raw & Hparse)].
  - destruct (resolve_runtime_options_quiet args env) as (tr & opts & Hres & Htr).
    rewrite (run_server_missing _ _ _ _ _ Hparse Hres Hm), Hparse.
    unfold trace, outcome, fst, snd. split; [| split; [| split]].
    + intros e He. apply in_app_or in He as [He | He]; [auto |].
      apply in_map_iff in He as (line & <- & _). reflexivity.
    + reflexivity.
    + discriminate.
    + discriminate.
  - unfold run_server. rewrite (bind_SysExit _ _ _ _ Hparse), Hparse.
    unfold trace, outcome, fst, snd. split; [| split; [| split]].
    + intros e [<- | []]. reflexivity.
    + discriminate.
    + intros code [= <-]. reflexivity.
    + discriminate.
Qed.

Lemma C6_missing_credential_exits_witness :
  unset_or_empty no_password "OTRS_PASSWORD" /\
  outcome (run_server no_argv no_password) = SysExit 1 /\
  (forall e, In e (trace (run_server no_argv no_password)) ->
             is_runtime_event e = false).
Proof.
  assert (unset_or_empty no_password "OTRS_PASSWORD") as Hu
    by (left; reflexivity).
  split; [exact Hu |].
  destruct (C6_missing_credential_exits no_argv no_password
              (or_intror (or_intror Hu))) as (Hquiet & Hexit & _).
  split; [| exact Hquiet].
  apply (Hexit no_args). reflexivity.
Defined.

(** C6 as stated fails: with [OTRS_PASSWORD] missing and [--port http] on
    the command line, the argument parser ends the process before the
    environment is looked at, and the status is 2, not 1. *)
Lemma C6_usage_error_exits_with_2 :
  unset_or_empty no_password "OTRS_PASSWORD" /\
  run_server {| flag_transport := None; flag_host := None;
                flag_port := Some "http" |} no_password
    = ([ArgparseError "--port" "http"], SysExit 2) /\
  outcome (run_server {| flag_transport := None; flag_host := None;
                         flag_port := Some "http" |} no_password)
    <> SysExit 1.
Proof.
  split; [left; reflexivity |]. split; [reflexivity | discriminate].
Qed.

(** * Further properties of the module *)

(** ** _first_env and _parse_port *)

(** X1.  [_first_env] returns a value exactly when some listed name has a
    non-empty value, and then it is the value of the first such name in the
    order given; it returns [None] exactly when every listed name is unset
    or empty.  It never returns the empty string. *)
Theorem X1_first_env_characterised (env : environ) (names : list string) :
  (forall s, _first_env env names = Some s <->
             exists name, first_nonempty env names name s) /\
  (_first_env env names = None <-> Forall (unset_or_empty env) names) /\
  _first_env env names <> Some "".
Proof.
  split; [| split].
  - intros s. apply _first_env_Some.
  - apply _first_env_None.
  - intros H. apply _first_env_truthy in H. congruence.
Qed.

Lemma _parse_port_spec (value : option port_value) (default : Z) :
  exists w p,
    _parse_port value default = (map Stderr w, Ret p) /\
    (length w <= 1)%nat /\
    (w = [] <->
     value = None \/
     exists v n, value = Some v /\ int_of_value v = Some n /\ in_range n) /\
    (forall v n, value = Some v -> int_of_value v = Some n -> in_range n ->
                 p = n) /\
    (w <> [] \/ value = None -> p = default).
Proof.
  destruct value as [v|].
  - destruct (int_of_value v) as [n|] eqn:Hv.
    + destruct (decide (in_range n)) as [Hr|Hr].
      * exists [], n. rewrite (_parse_port_valid _ _ _ Hv Hr).
        split; [reflexivity |]. split; [simpl; lia |]. split; [| split].
        -- split; [intros _; right; eauto | reflexivity].
        -- intros v' n' [= <-] Hv' _. congruence.
        -- intros [H | H]; congruence.
      * exists [port_range_warning n default], default.
        rewrite (_parse_port_out_of_range _ _ _ Hv Hr).
        split; [reflexivity |]. split; [simpl; lia |]. split; [| split].
        -- split; [discriminate |].
           intros [H | (v' & n' & [= <-] & Hv' & Hr')]; [discriminate |].
           rewrite Hv in Hv'. injection Hv' as <-. contradiction.
        -- intros v' n' [= <-] Hv' Hr'. rewrite Hv in Hv'.
           injection Hv' as <-. contradiction.
        -- reflexivity.
    + exists [invalid_port_warning v default], default.
      rewrite (_parse_port_invalid _ _ Hv).
      split; [reflexivity |]. split; [simpl; lia |]. split; [| split].
      * split; [discriminate |].
        intros [H | (v' & n' & [= <-] & Hv' & _)]; congruence.
      * intros v' n' [= <-] Hv'. congruence.
      * reflexivity.
  - exists [], default. split; [reflexivity |]. split; [simpl; lia |].
    split; [| split].
    + split; auto.
    + discriminate.
    + reflexivity.
Qed.

(** X2.  [_parse_port] always returns and writes at most one line, to the
    diagnostic stream.  It writes nothing exactly when it was given no
    value or a value that [int] reads as a port in 1..65535; a valid value
    is returned as that integer; after a warning, and for no value, the
    result is [default], which is returned unchecked. *)
Theorem X2_parse_port_characterised (value : option port_value) (default : Z) :
  exists w p,
    _parse_port value default = (map Stderr w, Ret p) /\
    (length w <= 1)%nat /\
    (w = [] <->
     value = None \/
     exists v n, value = Some v /\ int_of_value v = Some n /\ in_range n) /\
    (forall v n, value = Some v -> int_of_value v = Some n -> in_range n ->
                 p = n) /\
    (w <> [] \/ value = None -> p = default).
Proof. apply _parse_port_spec. Qed.

(** ** resolve_runtime_options *)

Lemma resolve_runtime_options_agree (args : Namespace.t) (env env' : environ) :
  (forall name, In name RESOLVE_ENV_NAMES -> env !! name = env' !! name) ->
  resolve_runtime_options args env = resolve_runtime_options args env'.
Proof.
  intros H. unfold resolve_runtime_options.
  rewrite (H "MCP_TRANSPORT") by (left; reflexivity).
  rewrite (_first_env_agree env env' HOST_ENV_NAMES)
    by (intros name Hn; apply H; right; apply in_or_app; left; exact Hn).
  rewrite (_first_env_agree env env' PORT_ENV_NAMES)
    by (intros name Hn; apply H; right; apply in_or_app; right; exact Hn).
  reflexivity.
Qed.

(** X3.  [resolve_runtime_options] reads seven environment variables and
    no other: two environments that agree on [MCP_TRANSPORT], the three
    host names and the three port names give the same options and the same
    warnings. *)
Theorem X3_resolve_reads_only_mcp_names (args : Namespace.t)
    (env env' : environ) :
  (forall name, In name RESOLVE_ENV_NAMES -> env !! name = env' !! name) ->
  resolve_runtime_options args env = resolve_runtime_options args env'.
Proof. apply resolve_runtime_options_agree. Qed.

Lemma X3_resolve_reads_only_mcp_names_witness :
  resolve_runtime_options no_args credentials = resolve_runtime_options no_args ∅.
Proof.
  apply X3_resolve_reads_only_mcp_names.
  intros name Hn. unfold RESOLVE_ENV_NAMES in Hn. cbn [In app HOST_ENV_NAMES PORT_ENV_NAMES] in Hn.
  repeat (destruct Hn as [<- | Hn]; [reflexivity |]). destruct Hn.
Defined.

Lemma chosen_host_cases (args : Namespace.t) (env : environ) :
  chosen_host args env <> "" /\
  (Namespace.host args = Some (chosen_host args env) \/
   (exists name, In name HOST_ENV_NAMES /\
                 env !! name = Some (chosen_host args env)) \/
   chosen_host args env = DEFAULT_HTTP_HOST).
Proof.
  unfold chosen_host, Py.or_.
  destruct (Namespace.host args) as [[|c h]|] eqn:Hh; cbn [Py.truthy Py.or_default].
  2: { split; [discriminate | left; reflexivity]. }
  all: destruct (_first_env env HOST_ENV_NAMES) as [s|] eqn:Hs;
    [apply _first_env_Some in Hs as (name & pre & post & Hnames & _ & Hv & Hne);
     destruct s as [|c s]; [congruence |]; cbn [Py.or_default];
     split; [discriminate |]; right; left; exists name;
     split; [rewrite Hnames; apply in_or_app; right; left; reflexivity | exact Hv]
    | cbn [Py.or_default]; split; [discriminate | right; right; reflexivity]].
Qed.

(** X4.  The resolved host is never the empty string, and it is always the
    value of [--host], the value of one of [MCP_HTTP_HOST],
    [MCP_SERVER_HOST], [MCP_HOST], or ["127.0.0.1"]; it is not checked in
    any other way. *)
Theorem X4_resolved_host_nonempty (args : Namespace.t) (env : environ) :
  exists opts,
    outcome (resolve_runtime_options args env) = Ret opts /\
    host opts <> "" /\
    (Namespace.host args = Some (host opts) \/
     (exists name, In name HOST_ENV_NAMES /\ env !! name = Some (host opts)) \/
     host opts = "127.0.0.1").
Proof.
  destruct (resolve_runtime_options_returns args env)
    as (w & p & _ & _ & _ & ->).
  eexists. split; [reflexivity |]. cbn [host]. apply chosen_host_cases.
Qed.

(** X5.  [resolve_runtime_options] writes to the diagnostic stream only,
    at most two lines, and writes nothing exactly when no fallback took
    place: the transport it looked at is supported and the port input is
    absent or an integer in 1..65535. *)
Theorem X5_resolve_warns_iff_fallback (args : Namespace.t) (env : environ) :
  (forall e, In e (trace (resolve_runtime_options args env)) ->
             exists line, e = Stderr line) /\
  (length (trace (resolve_runtime_options args env)) <= 2)%nat /\
  (trace (resolve_runtime_options args env) = [] <->
   chosen_transport args env ∈ VALID_TRANSPORTS /\
   (port_source args env = None \/
    exists v n, port_source args env = Some v /\
                int_of_value v = Some n /\ in_range n)).
Proof.
  destruct (_parse_port_spec (port_source args env) DEFAULT_HTTP_PORT)
    as (w & p & Hp & Hlen & Hnil & _ & _).
  rewrite (resolve_runtime_options_eq _ _ _ _ Hp). unfold trace, fst.
  rewrite <- Hnil.
  destruct (decide (chosen_transport args env ∈ VALID_TRANSPORTS)) as [Hv | Hv];
    cbn [app]; (split; [| split]).
  - intros e He. apply in_map_iff in He as (line & <- & _). eauto.
  - rewrite length_map. lia.
  - split.
    + intros H. split; [exact Hv |]. destruct w; [reflexivity | discriminate H].
    + intros [_ ->]. reflexivity.
  - intros e [<- | He]; [eauto |].
    apply in_map_iff in He as (line & <- & _). eauto.
  - cbn [length]. rewrite length_map. lia.
  - split; [discriminate | intros [H _]; contradiction].
Qed.

(** ** Whitespace around a port *)

Lemma lstrip_all_space (ws : string) :
  all_space ws = true -> Py.lstrip ws = "".
Proof.
  induction ws as [|c ws IH]; [reflexivity |]. cbn [all_space Py.lstrip].
  intros [Hc Hws]%andb_true_iff. rewrite Hc. auto.
Qed.

Lemma lstrip_app_space (ws s : string) :
  all_space ws = true -> Py.lstrip (ws +:+ s) = Py.lstrip s.
Proof.
  induction ws as [|c ws IH]; [reflexivity |].
  change (String c ws +:+ s) with (String c (ws +:+ s)).
  cbn [all_space Py.lstrip].
  intros [Hc Hws]%andb_true_iff. rewrite Hc. auto.
Qed.

Lemma rstrip_all_space (ws : string) :
  all_space ws = true -> Py.rstrip ws = "".
Proof.
  induction ws as [|c ws IH]; [reflexivity |]. cbn [all_space Py.rstrip].
  intros [Hc Hws]%andb_true_iff. rewrite (IH Hws), Hc. reflexivity.
Qed.

Lemma rstrip_app_space (s ws : string) :
  all_space ws = true -> Py.rstrip (s +:+ ws) = Py.rstrip s.
Proof.
  intros Hws. induction s as [|c s IH].
  - apply rstrip_all_space, Hws.
  - change (String c s +:+ ws) with (String c (s +:+ ws)).
    cbn [Py.rstrip]. rewrite IH. reflexivity.
Qed.

Lemma strip_app_space (s ws : string) :
  all_space ws = true -> Py.strip (s +:+ ws) = Py.strip s.
Proof.
  intros Hws. unfold Py.strip. induction s as [|c s IH].
  - change ("" +:+ ws) with ws. rewrite (lstrip_all_space _ Hws). reflexivity.
  - change (String c s +:+ ws) with (String c (s +:+ ws)).
    cbn [Py.lstrip]. destruct (Py.is_space c); [exact IH |].
    apply (rstrip_app_space (String c s) ws Hws).
Qed.

Lemma int_padded (ws1 s ws2 : string) :
  all_space ws1 = true -> all_space ws2 = true ->
  Py.int (ws1 +:+ s +:+ ws2) = Py.int s.
Proof.
  intros H1 H2. unfold Py.int, Py.strip.
  rewrite (lstrip_app_space _ _ H1).
  fold (Py.strip (s +:+ ws2)) (Py.strip s).
  rewrite (strip_app_space _ _ H2). reflexivity.
Qed.

(** X6.  Whitespace before and after the text of a port does not matter:
    [_parse_port] returns the same port for the padded text as for the bare
    one (only the text quoted in a warning differs). *)
Theorem X6_port_padding_ignored (ws1 s ws2 : string) (default : Z) :
  all_space ws1 = true -> all_space ws2 = true ->
  int_of_value (PortStr (ws1 +:+ s +:+ ws2)) = int_of_value (PortStr s) /\
  outcome (_parse_port (Some (PortStr (ws1 +:+ s +:+ ws2))) default) =
  outcome (_parse_port (Some (PortStr s)) default).
Proof.
  intros H1 H2.
  assert (int_of_value (PortStr (ws1 +:+ s +:+ ws2)) = int_of_value (PortStr s))
    as Hint by (apply int_padded; assumption).
  split; [exact Hint |]. unfold _parse_port. rewrite Hint.
  destruct (int_of_value (PortStr s)) as [n|]; [| reflexivity].
  destruct (negb ((0 <? n) && (n <? 65536))); reflexivity.
Qed.

Lemma X6_port_padding_ignored_witness :
  outcome (_parse_port (Some (PortStr (" " +:+ "8080" +:+ nl))) 8000) = Ret 8080.
Proof.
  rewrite (proj2 (X6_port_padding_ignored " " "8080" nl 8000 eq_refl eq_refl)).
  reflexivity.
Defined.

(** ** What the summary shows of the credentials *)

Lemma display_password (value value' : string) :
  String.length value = String.length value' ->
  display_value "OTRS_PASSWORD" value = display_value "OTRS_PASSWORD" value'.
Proof.
  intros H. unfold display_value.
  change (Py.contains "PASSWORD" "OTRS_PASSWORD") with true.
  cbv iota. rewrite H. reflexivity.
Qed.

Lemma setup_environment_password (options : RuntimeOptions) (env : environ)
    (pw pw' : string) :
  pw <> "" -> pw' <> "" -> String.length pw = String.length pw' ->
  setup_environment options (<["OTRS_PASSWORD" := pw]> env) =
  setup_environment options (<["OTRS_PASSWORD" := pw']> env).
Proof.
  intros Hpw Hpw' Hlen.
  assert (shown_required (<["OTRS_PASSWORD" := pw]> env) required_vars =
          shown_required (<["OTRS_PASSWORD" := pw']> env) required_vars) as Hshown.
  { unfold shown_required, required_vars. cbn [omap list_omap].
    rewrite !lookup_insert_eq. rewrite !lookup_insert_ne by discriminate.
    destruct pw as [|a pw]; [congruence |].
    destruct pw' as [|a' pw']; [congruence |].
    rewrite (display_password _ _ Hlen). reflexivity. }
  assert (missing_of (<["OTRS_PASSWORD" := pw]> env) required_vars =
          missing_of (<["OTRS_PASSWORD" := pw']> env) required_vars) as Hmissing.
  { unfold missing_of, required_vars. cbn [List.filter].
    rewrite !lookup_insert_eq. rewrite !lookup_insert_ne by discriminate.
    destruct pw as [|a pw]; [congruence |].
    destruct pw' as [|a' pw']; [congruence |]. reflexivity. }
  assert (optional_lines (<["OTRS_PASSWORD" := pw]> env) =
          optional_lines (<["OTRS_PASSWORD" := pw']> env)) as Hoptional.
  { unfold optional_lines, optional_vars. cbn [map].
    rewrite !lookup_insert_ne by discriminate. reflexivity. }
  destruct (missing_of (<["OTRS_PASSWORD" := pw']> env) required_vars)
    as [|m l] eqn:E.
  - rewrite !setup_environment_complete by congruence.
    rewrite Hshown, Hoptional. reflexivity.
  - rewrite !setup_environment_missing by congruence.
    rewrite Hshown, Hmissing, E. reflexivity.
Qed.

(** A run depends on the environment through resolution and validation
    only. *)
Lemma run_server_ext (argv : Argv) (env env' : environ) :
  (forall args, resolve_runtime_options args env =
                resolve_runtime_options args env') ->
  (forall options, setup_environment options env =
                   setup_environment options env') ->
  run_server argv env = run_server argv env'.
Proof.
  intros Hres Hsetup. unfold run_server.
  destruct (parse_cli_args argv) as [t [args | code]]; [| reflexivity].
  rewrite !(bind_Ret _ _ _ _ eq_refl). rewrite Hres.
  destruct (resolve_runtime_options args env') as [t' [options | code]];
    [| reflexivity].
  rewrite !(bind_Ret _ _ _ _ eq_refl). rewrite Hsetup. reflexivity.
Qed.

(** X7.  A run shows the password by its length only: two environments
    that differ in the value of [OTRS_PASSWORD] alone, both values non-empty
    and of the same length, give the same output, the same settings and the
    same outcome. *)
Theorem X7_password_shown_by_length_only (argv : Argv) (env : environ)
    (pw pw' : string) :
  pw <> "" -> pw' <> "" -> String.length pw = String.length pw' ->
  run_server argv (<["OTRS_PASSWORD" := pw]> env) =
  run_server argv (<["OTRS_PASSWORD" := pw']> env).
Proof.
  intros Hpw Hpw' Hlen. apply run_server_ext.
  - intros args. apply resolve_runtime_options_agree.
    intros name Hn. rewrite !lookup_insert_ne; [reflexivity | |];
      intros <-; unfold RESOLVE_ENV_NAMES in Hn;
      cbn [In app HOST_ENV_NAMES PORT_ENV_NAMES] in Hn;
      repeat (destruct Hn as [Hn | Hn]; [discriminate Hn |]); destruct Hn.
  - intros options. apply setup_environment_password; assumption.
Qed.

Lemma X7_password_shown_by_length_only_witness :
  run_server no_argv (<["OTRS_PASSWORD" := "secret"]> credentials) =
  run_server no_argv (<["OTRS_PASSWORD" := "hunter"]> credentials).
Proof.
  apply X7_password_shown_by_length_only; [discriminate | discriminate | reflexivity].
Defined.

(** X8.  The other required variables are echoed in clear: for a required
    variable whose name does not contain [PASSWORD] and a non-empty value,
    [setup_environment] prints the name and the value as they are, whether
    validation succeeds or fails. *)
Theorem X8_other_credentials_in_clear (options : RuntimeOptions)
    (env : environ) (var value : string) :
  In var required_vars ->
  Py.contains "PASSWORD" var = false ->
  env !! var = Some value ->
  value <> "" ->
  In (Stdout ("  " +:+ var +:+ ": " +:+ value))
     (trace (setup_environment options env)).
Proof.
  intros Hin Hc Hv Hne.
  assert (In (config_line var (display_value var value))
             (shown_required env required_vars)) as Hshown
    by (apply shown_required_In; eauto 8).
  unfold display_value in Hshown. rewrite Hc in Hshown.
  change (config_line var value) with ("  " +:+ var +:+ ": " +:+ value) in Hshown.
  destruct (missing_of env required_vars) as [|m l] eqn:E.
  - rewrite (setup_environment_complete options env E).
    unfold trace, fst. apply In_map_Stdout. right.
    apply in_or_app. left. exact Hshown.
  - assert (missing_of env required_vars <> []) as Hm by congruence.
    rewrite (setup_environment_missing options env Hm).
    unfold trace, fst. apply In_map_Stdout. right.
    apply in_or_app. left. exact Hshown.
Qed.

Lemma X8_other_credentials_in_clear_witness :
  In (Stdout "  OTRS_USERNAME: agent")
     (trace (setup_environment default_options no_password)).
Proof.
  apply (X8_other_credentials_in_clear default_options no_password
           "OTRS_USERNAME" "agent").
  - right; left; reflexivity.
  - reflexivity.
  - reflexivity.
  - discriminate.
Defined.

(** X9.  When validation succeeds, each of the four optional variables is
    shown: as [default] when it is unset, and with its value when it is
    set, the empty string included (an empty optional variable is shown
    empty, not as [default]). *)
Theorem X9_optional_shown (options : RuntimeOptions) (env : environ)
    (var : string) :
  complete env ->
  In var optional_vars ->
  (env !! var = None ->
   In (Stdout ("  " +:+ var +:+ ": default"))
      (trace (setup_environment options env))) /\
  (forall value, env !! var = Some value ->
   In (Stdout ("  " +:+ var +:+ ": " +:+ value))
      (trace (setup_environment options env))).
Proof.
  intros Hc Hin. apply missing_of_nil_iff in Hc.
  rewrite (setup_environment_complete options env Hc). unfold trace, fst.
  assert (In (config_line var (default "default" (env !! var)))
             (optional_lines env)) as Hline
    by (unfold optional_lines; apply in_map_iff; exists var;
        split; [reflexivity | exact Hin]).
  assert (forall value, default "default" (env !! var) = value ->
            In (Stdout ("  " +:+ var +:+ ": " +:+ value))
               (map Stdout (config_header :: shown_required env required_vars ++
                            optional_lines env ++ runtime_lines options)%list))
    as Hshow.
  { intros value <-. apply In_map_Stdout. right.
    apply in_or_app. right. apply in_or_app. left. exact Hline. }
  split.
  - intros Hnone. apply Hshow. rewrite Hnone. reflexivity.
  - intros value Hsome. apply Hshow. rewrite Hsome. reflexivity.
Qed.

Lemma X9_optional_shown_witness :
  In (Stdout "  OTRS_DEFAULT_QUEUE: default")
     (trace (setup_environment default_options
               (<["OTRS_VERIFY_SSL" := ""]> credentials))) /\
  In (Stdout "  OTRS_VERIFY_SSL: ")
     (trace (setup_environment default_options
               (<["OTRS_VERIFY_SSL" := ""]> credentials))).
Proof.
  assert (complete (<["OTRS_VERIFY_SSL" := ""]> credentials)) as Hc
    by (repeat constructor; intros [H | H]; vm_compute in H; discriminate H).
  split.
  - apply (proj1 (X9_optional_shown default_options _ "OTRS_DEFAULT_QUEUE" Hc
                    (or_intror (or_introl eq_refl)))).
    reflexivity.
  - apply (proj2 (X9_optional_shown default_options _ "OTRS_VERIFY_SSL" Hc
                    (or_introl eq_refl)) "").
    reflexivity.
Defined.

(** ** Whole runs *)

Lemma accepted_iff (argv : Argv) :
  accepted argv <-> exists args, parse_cli_args argv = ([], Ret args).
Proof.
  split.
  - intros [Ht Hp]. eexists. apply parse_cli_args_accepts; assumption.
  - intros (args & H). unfold parse_cli_args in H. split.
    + intros t Ht. rewrite Ht in H.
      destruct (decide (t ∈ VALID_TRANSPORTS)) as [Hv | Hv]; [exact Hv |].
      discriminate H.
    + intros raw Hraw. rewrite Hraw in H.
      destruct (Py.int raw) as [n|]; [eauto |].
      destruct (flag_transport argv) as [t|];
        [destruct (decide (t ∈ VALID_TRANSPORTS)) |]; discriminate H.
Qed.

Lemma parse_cli_args_Ret (argv : Argv) (t : list event) (args : Namespace.t) :
  parse_cli_args argv = (t, Ret args) ->
  accepted argv /\ t = [] /\
  args = Namespace.mk (flag_transport argv) (flag_host argv)
                      (flag_port argv ≫= Py.int).
Proof.
  intros H.
  destruct (parse_cli_args_cases argv) as [(args' & H') | (flag & raw & H')];
    rewrite H' in H; [| discriminate H].
  injection H as <- <-.
  assert (accepted argv) as Ha by (apply accepted_iff; eauto).
  split; [exact Ha |]. split; [reflexivity |].
  destruct Ha as [Ht Hp].
  rewrite (parse_cli_args_accepts argv Ht Hp) in H'. congruence.
Qed.

(** What resolution returns, whatever it was given. *)
Lemma resolved_options_facts (args : Namespace.t) (env : environ) :
  exists tr opts,
    resolve_runtime_options args env = (tr, Ret opts) /\
    transport opts ∈ VALID_TRANSPORTS /\ in_range (port opts) /\
    host opts <> "" /\
    (forall e, In e tr -> exists line, e = Stderr line) /\
    (forall line, In (Stderr line) tr -> is_transport_warning line = true ->
       (chosen_transport args env ∉ VALID_TRANSPORTS) /\
       line = unsupported_transport_warning (chosen_transport args env)).
Proof.
  destruct (resolve_runtime_options_returns args env)
    as (w & p & _ & Hp & Hw & ->).
  eexists _, _. split; [reflexivity |]. cbn [transport port host].
  split; [| split; [| split; [| split]]].
  - destruct (decide (chosen_transport args env ∈ VALID_TRANSPORTS)) as [H | _];
      [exact H | apply valid_transport_iff; auto].
  - destruct Hp as [-> | Hp]; [unfold in_range, DEFAULT_HTTP_PORT; lia | exact Hp].
  - apply chosen_host_cases.
  - intros e He. apply in_app_or in He as [He | He].
    + destruct (decide (chosen_transport args env ∈ VALID_TRANSPORTS));
        [destruct He | destruct He as [<- | []]; eauto].
    + destruct (Hw e He) as (line & -> & _). eauto.
  - intros line He Hl. apply in_app_or in He as [He | He].
    + destruct (decide (chosen_transport args env ∈ VALID_TRANSPORTS)) as [Hv | Hv];
        [destruct He | destruct He as [[= <-] | []]; auto].
    + destruct (Hw _ He) as (line' & [= <-] & Hl'). congruence.
Qed.

(** A run with every required variable present, in full. *)
Lemma run_server_complete (argv : Argv) (env : environ) (args : Namespace.t)
    (tr : list event) (opts : RuntimeOptions) :
  parse_cli_args argv = ([], Ret args) ->
  resolve_runtime_options args env = (tr, Ret opts) ->
  missing_of env required_vars = [] ->
  run_server argv env =
    ((tr ++
      map Stdout (config_header :: shown_required env required_vars ++
                  optional_lines env ++ runtime_lines opts) ++
      [SetHost (host opts); SetPort (port opts)] ++
      map Stdout (banner_lines opts) ++
      [McpRun (transport opts)])%list,
     Ret tt).
Proof.
  intros Hparse Hres Hm. unfold run_server.
  rewrite (bind_Ret _ _ _ _ Hparse), (bind_Ret _ _ _ _ Hres).
  rewrite (bind_Ret _ _ _ _ (setup_environment_complete opts env Hm)).
  cbn [negb]. unfold apply_runtime_settings, print, emit, banner_lines.
  unfold mret, mbind, Proc_bind, Proc_ret, trace, outcome.
  destruct (negb (String.eqb (transport opts) "stdio"));
    cbn [fst snd app map]; rewrite <- ?app_assoc; reflexivity.
Qed.

(** The three ways a run can go. *)
Lemma run_server_cases (argv : Argv) (env : environ) :
  (~ accepted argv /\
   exists flag raw, run_server argv env = ([ArgparseError flag raw], SysExit 2)) \/
  (exists args tr opts,
     parse_cli_args argv = ([], Ret args) /\
     resolve_runtime_options args env = (tr, Ret opts) /\
     missing_of env required_vars <> [] /\
     run_server argv env =
       ((tr ++ map Stdout (config_header :: shown_required env required_vars ++
                           missing_lines (missing_of env required_vars)))%list,
        SysExit 1)) \/
  (exists args tr opts,
     parse_cli_args argv = ([], Ret args) /\
     resolve_runtime_options args env = (tr, Ret opts) /\
     missing_of env required_vars = [] /\
     run_server argv env =
       ((tr ++
         map Stdout (config_header :: shown_required env required_vars ++
                     optional_lines env ++ runtime_lines opts) ++
         [SetHost (host opts); SetPort (port opts)] ++
         map Stdout (banner_lines opts) ++
         [McpRun (transport opts)])%list,
        Ret tt)).
Proof.
  destruct (parse_cli_args_cases argv) as [(args & Hparse) | (flag & raw & Hparse)].
  - right.
    destruct (resolved_options_facts args env) as (tr & opts & Hres & _).
    destruct (missing_of env required_vars) as [|m l] eqn:E.
    + right. exists args, tr, opts. repeat split; auto.
      apply (run_server_complete _ _ args); assumption.
    + left. exists args, tr, opts. rewrite <- E.
      assert (missing_of env required_vars <> []) as Hm by congruence.
      repeat split; auto. apply (run_server_missing _ _ args _ opts); assumption.
  - left. split.
    + intros (args & H)%accepted_iff. congruence.
    + exists flag, raw. unfold run_server.
      apply (bind_SysExit _ _ _ _ Hparse).
Qed.

Lemma resolve_trace_stderr (args : Namespace.t) (env : environ)
    (tr : list event) (opts : RuntimeOptions) :
  resolve_runtime_options args env = (tr, Ret opts) ->
  forall e, In e tr -> exists line, e = Stderr line.
Proof.
  intros H. destruct (resolved_options_facts args env)
    as (tr' & opts' & H' & _ & _ & _ & Hs & _).
  rewrite H in H'. injection H' as <- <-. exact Hs.
Qed.

Lemma resolve_options_valid (args : Namespace.t) (env : environ)
    (tr : list event) (opts : RuntimeOptions) :
  resolve_runtime_options args env = (tr, Ret opts) ->
  transport opts ∈ VALID_TRANSPORTS /\ in_range (port opts) /\ host opts <> "".
Proof.
  intros H. destruct (resolved_options_facts args env)
    as (tr' & opts' & H' & Ht & Hp & Hh & _).
  rewrite H in H'. injection H' as <- <-. auto.
Qed.

Lemma complete_iff (env : environ) :
  complete env <-> missing_of env required_vars = [].
Proof. unfold complete. symmetry. apply missing_of_nil_iff. Qed.

Lemma outcome_Ret_parse (argv : Argv) (args : Namespace.t) :
  outcome (parse_cli_args argv) = Ret args ->
  parse_cli_args argv = ([], Ret args).
Proof.
  destruct (parse_cli_args argv) as [t r] eqn:E. unfold outcome, snd.
  intros ->. apply parse_cli_args_Ret in E as (_ & -> & _). reflexivity.
Qed.

(** X10.  A run follows the parser, then the validation.  When the
    argument parser ends the process, the run does nothing more and ends
    with the parser's status.  When the parser returns a namespace, the run
    reaches its end exactly when the three required variables are set and
    non-empty, and leaves with status 1 exactly when one of them is unset
    or empty.  [mcp.run] is called exactly when the parser returns and the
    three required variables are set and non-empty. *)
Theorem X10_run_outcomes (argv : Argv) (env : environ) :
  (forall code, outcome (parse_cli_args argv) = SysExit code ->
     run_server argv env = (trace (parse_cli_args argv), SysExit code)) /\
  (forall args, outcome (parse_cli_args argv) = Ret args ->
     (outcome (run_server argv env) = Ret tt <-> complete env) /\
     (outcome (run_server argv env) = SysExit 1 <->
      exists var, In var required_vars /\ unset_or_empty env var)) /\
  ((exists t, In (McpRun t) (trace (run_server argv env))) <->
   (exists args, outcome (parse_cli_args argv) = Ret args) /\ complete env).
Proof.
  split; [| split].
  - intros code Hcode. unfold run_server.
    destruct (parse_cli_args argv) as [t r].
    unfold outcome, snd in Hcode. subst r. reflexivity.
  - intros args Hargs. apply outcome_Ret_parse in Hargs.
    rewrite complete_iff, <- missing_of_cons_iff.
    destruct (run_server_cases argv env)
      as [(Hrej & _)
         | [(args' & tr & opts & Hparse & Hres & Hm & ->)
           | (args' & tr & opts & Hparse & Hres & Hm & ->)]];
      unfold outcome, snd.
    + exfalso. apply Hrej, accepted_iff. eauto.
    + split; split; try discriminate; try tauto.
    + split; split; try discriminate; try tauto.
  - rewrite complete_iff.
    destruct (run_server_cases argv env)
      as [(Hrej & flag & raw & ->)
         | [(args & tr & opts & Hparse & Hres & Hm & ->)
           | (args & tr & opts & Hparse & Hres & Hm & ->)]];
      unfold trace, fst.
    + split.
      * intros (t & [Hin | []]). discriminate Hin.
      * intros [(args & Hargs) _]. apply outcome_Ret_parse in Hargs.
        exfalso. apply Hrej, accepted_iff. eauto.
    + split; [| tauto]. intros (t & Hin). exfalso.
      apply in_app_or in Hin as [Hin | Hin].
      * destruct (resolve_trace_stderr _ _ _ _ Hres _ Hin) as (line & Hl).
        discriminate Hl.
      * apply in_map_iff in Hin as (line & Hl & _). discriminate Hl.
    + split.
      * intros _. split; [| exact Hm]. exists args. rewrite Hparse. reflexivity.
      * intros _. exists (transport opts). rewrite !app_assoc.
        apply in_or_app. right. left. reflexivity.
Qed.

(** X11.  Whatever the command line and the environment, the server
    runtime only ever receives checked values: [mcp.run] is called with a
    transport of [VALID_TRANSPORTS] only, the port that is pushed satisfies
    [0 < port < 65536], and the host that is pushed is not empty. *)
Theorem X11_runtime_receives_valid_values (argv : Argv) (env : environ)
    (e : event) :
  In e (trace (run_server argv env)) ->
  match e with
  | McpRun t => t ∈ VALID_TRANSPORTS
  | SetPort p => 0 < p < 65536
  | SetHost h => h <> ""
  | _ => True
  end.
Proof.
  destruct (run_server_cases argv env)
    as [(Hrej & flag & raw & ->)
       | [(args & tr & opts & Hparse & Hres & Hm & ->)
         | (args & tr & opts & Hparse & Hres & Hm & ->)]];
    unfold trace, fst; intros Hin.
  - destruct Hin as [<- | []]. exact I.
  - apply in_app_or in Hin as [Hin | Hin].
    + destruct (resolve_trace_stderr _ _ _ _ Hres _ Hin) as (line & ->). exact I.
    + apply in_map_iff in Hin as (line & <- & _). exact I.
  - destruct (resolve_options_valid _ _ _ _ Hres) as (Ht & Hp & Hh).
    apply in_app_or in Hin as [Hin | Hin].
    { destruct (resolve_trace_stderr _ _ _ _ Hres _ Hin) as (line & ->). exact I. }
    apply in_app_or in Hin as [Hin | Hin].
    { apply in_map_iff in Hin as (line & <- & _). exact I. }
    apply in_app_or in Hin as [Hin | Hin].
    { destruct Hin as [<- | [<- | []]]; assumption. }
    apply in_app_or in Hin as [Hin | Hin].
    { apply in_map_iff in Hin as (line & <- & _). exact I. }
    destruct Hin as [<- | []]. exact Ht.
Qed.

Lemma X11_runtime_receives_valid_values_witness :
  "sse" ∈ VALID_TRANSPORTS.
Proof.
  apply (X11_runtime_receives_valid_values
           {| flag_transport := Some "sse"; flag_host := None;
              flag_port := Some "9000" |} credentials (McpRun "sse")).
  vm_compute. do 18 right. left. reflexivity.
Defined.

(** X12.  In a run that starts the server, the settings pushed are the
    resolved host and port, pushed once and before [mcp.run]; [mcp.run] is
    called once, with the resolved transport, and is the last thing the run
    does. *)
Theorem X12_settings_then_run (argv : Argv) (env : environ) :
  accepted argv -> complete env ->
  exists args opts before banner,
    parse_cli_args argv = ([], Ret args) /\
    outcome (resolve_runtime_options args env) = Ret opts /\
    run_server argv env =
      ((before ++ [SetHost (host opts); SetPort (port opts)] ++
        map Stdout banner ++ [McpRun (transport opts)])%list,
       Ret tt) /\
    (forall e, In e before -> is_runtime_event e = false).
Proof.
  intros Ha Hc. apply complete_iff in Hc.
  destruct (run_server_cases argv env)
    as [(Hrej & _)
       | [(args & tr & opts & Hparse & Hres & Hm & _)
         | (args & tr & opts & Hparse & Hres & Hm & Hrun)]];
    [contradiction | contradiction |].
  exists args, opts, (tr ++ map Stdout (config_header ::
    shown_required env required_vars ++ optional_lines env ++
    runtime_lines opts))%list, (banner_lines opts).
  split; [exact Hparse |]. split; [rewrite Hres; reflexivity |]. split.
  - rewrite Hrun, <- !app_assoc. reflexivity.
  - intros e Hin. apply in_app_or in Hin as [Hin | Hin].
    + destruct (resolve_trace_stderr _ _ _ _ Hres _ Hin) as (line & ->).
      reflexivity.
    + apply in_map_iff in Hin as (line & <- & _). reflexivity.
Qed.

Lemma credentials_are_complete : complete credentials.
Proof.
  repeat constructor; intros [H | H]; vm_compute in H; discriminate H.
Defined.

Lemma no_argv_accepted : accepted no_argv.
Proof. split; intros x H; discriminate H. Defined.

Lemma X12_settings_then_run_witness :
  exists args opts before banner,
    parse_cli_args no_argv = ([], Ret args) /\
    outcome (resolve_runtime_options args credentials) = Ret opts /\
    run_server no_argv credentials =
      ((before ++ [SetHost (host opts); SetPort (port opts)] ++
        map Stdout banner ++ [McpRun (transport opts)])%list,
       Ret tt) /\
    (forall e, In e before -> is_runtime_event e = false).
Proof.
  exact (X12_settings_then_run no_argv credentials no_argv_accepted
           credentials_are_complete).
Defined.

(** ** The transport-dependent lines *)

(** The lines of a successful run that do not depend on the transport
    being [stdio] or not. *)
Lemma plain_lines (env : environ) (opts : RuntimeOptions) (line : string) :
  In line (config_header :: shown_required env required_vars ++
           optional_lines env ++
           [ nl +:+ "[CONFIG] MCP Runtime Settings:";
             "  MCP_TRANSPORT: " +:+ transport opts;
             "  MCP_HOST: " +:+ host opts;
             "  MCP_PORT: " +:+ Py.str (port opts);
             nl +:+ "[START] Starting OTRS MCP Server...";
             "[MODE] Running server with '" +:+ transport opts +:+ "' transport...";
             "[OPS] Available operations: SessionCreate, TicketCreate, TicketGet, TicketSearch, " +:+
             "TicketUpdate, TicketHistoryGet, ConfigItemGet, ConfigItemSearch" ])%list ->
  starts_with "  (host/port" line = false /\ starts_with "[LISTEN]" line = false.
Proof.
  intros [<- | H]; [split; reflexivity |].
  apply in_app_or in H as [H | H].
  { apply shown_required_In in H as (var & value & Hin & _ & _ & ->).
    unfold required_vars in Hin. cbn [In] in Hin.
    repeat (destruct Hin as [<- | Hin]; [split; reflexivity |]). destruct Hin. }
  apply in_app_or in H as [H | H].
  { unfold optional_lines, optional_vars in H. cbn [map In] in H.
    repeat (destruct H as [<- | H]; [split; reflexivity |]). destruct H. }
  cbn [In] in H.
  repeat (destruct H as [<- | H]; [split; reflexivity |]). destruct H.
Qed.

Lemma success_lines (env : environ) (opts : RuntimeOptions) (line : string) :
  In line ((config_header :: shown_required env required_vars ++
            optional_lines env ++ runtime_lines opts) ++ banner_lines opts)%list ->
  (starts_with "  (host/port" line = false /\ starts_with "[LISTEN]" line = false) \/
  (transport opts = "stdio" /\ line = stdio_note) \/
  (transport opts <> "stdio" /\ line = listen_line opts).
Proof.
  intros H.
  assert (In line (config_header :: shown_required env required_vars ++
           optional_lines env ++
           [ nl +:+ "[CONFIG] MCP Runtime Settings:";
             "  MCP_TRANSPORT: " +:+ transport opts;
             "  MCP_HOST: " +:+ host opts;
             "  MCP_PORT: " +:+ Py.str (port opts);
             nl +:+ "[START] Starting OTRS MCP Server...";
             "[MODE] Running server with '" +:+ transport opts +:+ "' transport...";
             "[OPS] Available operations: SessionCreate, TicketCreate, TicketGet, TicketSearch, " +:+
             "TicketUpdate, TicketHistoryGet, ConfigItemGet, ConfigItemSearch" ])%list \/
          (transport opts = "stdio" /\ line = stdio_note) \/
          (transport opts <> "stdio" /\ line = listen_line opts)) as [Hp | Hs].
  { unfold runtime_lines, banner_lines in H.
    destruct (String.eqb (transport opts) "stdio") eqn:E;
      [apply String.eqb_eq in E | apply String.eqb_neq in E];
      cbn [negb app In] in H |- *;
      repeat first [rewrite in_app_iff in H | progress cbn [In] in H];
      repeat first [rewrite in_app_iff | progress cbn [In]];
      unfold stdio_note; intuition (auto; congruence). }
  - left. exact (plain_lines env opts line Hp).
  - right. exact Hs.
Qed.

Lemma In_Stdout_complete (tr : list event) (setup banner : list string)
    (h t : string) (p : Z) (line : string) :
  (forall e, In e tr -> exists l, e = Stderr l) ->
  In (Stdout line)
     (tr ++ map Stdout setup ++ [SetHost h; SetPort p] ++
      map Stdout banner ++ [McpRun t])%list <->
  In line (setup ++ banner)%list.
Proof.
  intros Htr. rewrite !in_app_iff, !In_map_Stdout. cbn [In]. split.
  - intros [H | [H | [[H | [H | []]] | [H | [H | []]]]]]; auto; try discriminate H.
    destruct (Htr _ H) as (l & Hl). discriminate Hl.
  - intros [H | H]; auto.
Qed.

(** X13.  In a run that starts the server, the note that host and port
    affect HTTP transports only is printed exactly when the resolved
    transport is [stdio], and the [LISTEN] line with the resolved host and
    port exactly when it is not. *)
Theorem X13_transport_dependent_lines (argv : Argv) (env : environ)
    (args : Namespace.t) (tr : list event) (opts : RuntimeOptions) :
  parse_cli_args argv = ([], Ret args) ->
  resolve_runtime_options args env = (tr, Ret opts) ->
  complete env ->
  (In (Stdout stdio_note) (trace (run_server argv env)) <->
   transport opts = "stdio") /\
  (In (Stdout (listen_line opts)) (trace (run_server argv env)) <->
   transport opts <> "stdio").
Proof.
  intros Hparse Hres Hc. apply complete_iff in Hc.
  rewrite (run_server_complete _ _ _ _ _ Hparse Hres Hc). unfold trace, fst.
  rewrite !(In_Stdout_complete _ _ _ _ _ _ _ (resolve_trace_stderr _ _ _ _ Hres)).
  split; split.
  - intros H. apply success_lines in H as [[H _] | [[H _] | [_ H]]].
    + discriminate H.
    + exact H.
    + apply (f_equal (starts_with "[LISTEN]")) in H. discriminate H.
  - intros H. apply String.eqb_eq in H. unfold runtime_lines. rewrite H.
    repeat first [rewrite in_app_iff | progress cbn [In app]].
    unfold stdio_note. intuition auto.
  - intros H. apply success_lines in H as [[_ H] | [[_ H] | [H _]]].
    + discriminate H.
    + apply (f_equal (starts_with "[LISTEN]")) in H. discriminate H.
    + exact H.
  - intros H. apply String.eqb_neq in H. unfold banner_lines. rewrite H.
    cbn [negb].
    repeat first [rewrite in_app_iff | progress cbn [In app]].
    intuition auto.
Qed.

Lemma X13_transport_dependent_lines_witness :
  In (Stdout "  (host/port affect HTTP transports only)")
     (trace (run_server no_argv credentials)) /\
  ~ In (Stdout "[LISTEN] Interface 127.0.0.1:8000")
       (trace (run_server no_argv credentials)).
Proof.
  destruct (X13_transport_dependent_lines no_argv credentials no_args []
              default_options eq_refl eq_refl credentials_are_complete)
    as [H1 H2].
  split.
  - apply H1. reflexivity.
  - intros H. apply H2 in H. apply H. reflexivity.
Defined.

(** X14.  In a whole run an unsupported-transport warning can only come
    from the environment: when such a line is on the diagnostic stream,
    [--transport] was not given, and the line names the value of
    [MCP_TRANSPORT], which is not a supported transport. *)
Theorem X14_transport_warning_from_env_only (argv : Argv) (env : environ)
    (line : string) :
  In (Stderr line) (trace (run_server argv env)) ->
  is_transport_warning line = true ->
  flag_transport argv = None /\
  exists x,
    env !! "MCP_TRANSPORT" = Some x /\ (x ∉ VALID_TRANSPORTS) /\
    line = unsupported_transport_warning x.
Proof.
  intros Hin Hw.
  assert (exists args tr opts,
            parse_cli_args argv = ([], Ret args) /\
            resolve_runtime_options args env = (tr, Ret opts) /\
            In (Stderr line) tr) as (args & tr & opts & Hparse & Hres & Htr).
  { destruct (run_server_cases argv env)
      as [(Hrej & flag & raw & Hrun)
         | [(args & tr & opts & Hparse & Hres & Hm & Hrun)
           | (args & tr & opts & Hparse & Hres & Hm & Hrun)]];
      rewrite Hrun in Hin; unfold trace, fst in Hin.
    - destruct Hin as [H | []]. discriminate H.
    - exists args, tr, opts. repeat split; auto.
      apply in_app_or in Hin as [Hin | Hin]; [exact Hin |].
      apply in_map_iff in Hin as (l & H & _). discriminate H.
    - exists args, tr, opts. repeat split; auto.
      rewrite !in_app_iff in Hin. cbn [In] in Hin.
      destruct Hin as [H | [H | [[H | [H | []]] | [H | [H | []]]]]];
        auto; try discriminate H;
        apply in_map_iff in H as (l & H & _); discriminate H. }
  destruct (resolved_options_facts args env)
    as (tr' & opts' & Hres' & _ & _ & _ & _ & Hwarn).
  rewrite Hres in Hres'. injection Hres' as <- <-.
  destruct (Hwarn line Htr Hw) as (Hbad & ->).
  apply parse_cli_args_Ret in Hparse as ([Hvalid _] & _ & ->).
  unfold chosen_transport, Py.or_ in *. cbn [Namespace.transport] in *.
  destruct (flag_transport argv) as [[|c t]|] eqn:Hflag; cbn [Py.truthy] in *.
  - exfalso. specialize (Hvalid "" eq_refl).
    apply valid_transport_iff in Hvalid as [H | [H | H]]; discriminate H.
  - exfalso. apply Hbad. cbn [Py.or_default]. apply Hvalid. reflexivity.
  - split; [reflexivity |].
    destruct (env !! "MCP_TRANSPORT") as [[|c x]|]; cbn [Py.or_default] in *.
    + exfalso. apply Hbad, valid_transport_iff. auto.
    + exists (String c x). auto.
    + exfalso. apply Hbad, valid_transport_iff. auto.
Qed.

Lemma X14_transport_warning_from_env_only_witness :
  exists x,
    ({[ "MCP_TRANSPORT" := "bogus" ]} : environ) !! "MCP_TRANSPORT" = Some x /\
    (x ∉ VALID_TRANSPORTS) /\
    "[WARN] Unsupported MCP transport 'bogus', falling back to 'stdio'"
      = unsupported_transport_warning x.
Proof.
  refine (proj2 (X14_transport_warning_from_env_only no_argv
                   {[ "MCP_TRANSPORT" := "bogus" ]}
                   "[WARN] Unsupported MCP transport 'bogus', falling back to 'stdio'"
                   _ eq_refl)).
  left. reflexivity.
Defined.
